(** * Lunef voice payment agent: confirmation protocol and tool adapters

    A shallow embedding of [agents/payment/payment_agent.py] and of the six
    adapters under [tools/], with the properties of the human-in-the-loop
    confirmation protocol proved over it.

    Conventions of the embedding.
    - A Python [str] is a Rocq [string] whose characters are the code points
      0..255; [lower] and [strip] are Python's on that range.
    - A Python object that came out of JSON is a [value].
    - What the Python standard library computes ([json.loads], [json.dumps],
      [str()] of floats and containers, [str.upper]) is a field of [PyLib];
      every theorem holds for all of them.
    - The language model behind [self.run] and the HTTP backend behind
      [httpx] are fields of [world]; every effect is logged as an [event]. *)

From Stdlib Require Import ZArith NArith List Bool Lia.
From Stdlib Require Import String Ascii DecimalString Floats.
Import ListNotations.

Local Open Scope list_scope.
Local Open Scope string_scope.

(** ** Python strings *)

Module PyStr.

(** [c.lower()] for one code point below 256: the ASCII capitals and the
    Latin-1 capitals U+00C0..U+00DE (the multiplication sign U+00D7 apart)
    move up by 32. *)
Definition lower_char (c : ascii) : ascii :=
  let n := N_of_ascii c in
  if ((65 <=? n) && (n <=? 90) ||
      (192 <=? n) && (n <=? 222) && negb (n =? 215))%N
  then ascii_of_N (n + 32) else c.

Fixpoint lower (s : string) : string :=
  match s with
  | EmptyString => EmptyString
  | String c s' => String (lower_char c) (lower s')
  end.

(** [c.isspace()] below 256: TAB..CR, FS..US, space, NEL and NBSP. *)
Definition isspace (c : ascii) : bool :=
  let n := N_of_ascii c in
  ((9 <=? n) && (n <=? 13) || (28 <=? n) && (n <=? 32) ||
   (n =? 133) || (n =? 160))%N.

Fixpoint lstrip (s : string) : string :=
  match s with
  | EmptyString => EmptyString
  | String c s' => if isspace c then lstrip s' else s
  end.

Fixpoint rstrip (s : string) : string :=
  match s with
  | EmptyString => EmptyString
  | String c s' =>
      match rstrip s' with
      | EmptyString => if isspace c then EmptyString else String c EmptyString
      | r => String c r
      end
  end.

(** [s.strip()] *)
Definition strip (s : string) : string := rstrip (lstrip s).

(** [s.lstrip(ch)] for a one-character argument. *)
Fixpoint lstrip_char (ch : ascii) (s : string) : string :=
  match s with
  | EmptyString => EmptyString
  | String c s' => if Ascii.eqb c ch then lstrip_char ch s' else s
  end.

(** [s.startswith(p)] *)
Fixpoint startswith (p s : string) : bool :=
  match p, s with
  | EmptyString, _ => true
  | String _ _, EmptyString => false
  | String a p', String b s' => Ascii.eqb a b && startswith p' s'
  end.

(** [needle in hay] *)
Fixpoint contains (needle hay : string) : bool :=
  startswith needle hay ||
  match hay with
  | EmptyString => false
  | String _ hay' => contains needle hay'
  end.

(** [s[:n]] *)
Fixpoint take (n : nat) (s : string) : string :=
  match n, s with
  | O, _ => EmptyString
  | S _, EmptyString => EmptyString
  | S n', String c s' => String c (take n' s')
  end.

(** [str(z)] of an [int]. *)
Definition of_Z (z : Z) : string := NilZero.string_of_int (Z.to_int z).

Definition dq : string := String (ascii_of_nat 34) EmptyString.
Definition nl : string := String (ascii_of_nat 10) EmptyString.

(** A double-quoted fragment, as the adapters spell JSON by hand. *)
Definition quoted (s : string) : string := dq ++ s ++ dq.

(** The substring relation [contains] decides. *)
Definition substring (needle hay : string) : Prop :=
  exists pre post, hay = pre ++ needle ++ post.

End PyStr.

Import PyStr.

(** ** Python values *)

#[warnings="-register-all"]
Inductive value : Type :=
| VNone
| VBool (b : bool)
| VInt (z : Z)
| VFloat (f : float)
| VStr (s : string)
| VList (l : list value)
| VDict (kvs : list (string * value)).

(** [bool(v)] *)
Definition truthy (v : value) : bool :=
  match v with
  | VNone => false
  | VBool b => b
  | VInt z => negb (z =? 0)%Z
  | VFloat f => negb (PrimFloat.eqb f PrimFloat.zero)
  | VStr s => negb (String.eqb s "")
  | VList l => match l with [] => false | _ => true end
  | VDict kvs => match kvs with [] => false | _ => true end
  end.

Fixpoint assoc (k : string) (kvs : list (string * value)) : option value :=
  match kvs with
  | [] => None
  | (k', v) :: rest => if String.eqb k k' then Some v else assoc k rest
  end.

(** [d.get(k, default)] on a dict. *)
Definition dict_get (kvs : list (string * value)) (k : string) (default : value) : value :=
  match assoc k kvs with
  | Some v => v
  | None => default
  end.

(** ** Exceptions and results *)

Inductive exn : Type :=
| JSONDecodeError
| AttributeError
| TypeError.

Inductive res (A : Type) : Type :=
| Ok (a : A)
| Raise (e : exn).
Arguments Ok {A} a.
Arguments Raise {A} e.

Definition returns {A : Type} (r : res A) : bool :=
  match r with Ok _ => true | Raise _ => false end.

(** [v.get(k, default)] on any object: only a dict has [get]. *)
Definition get (v : value) (k : string) (default : value) : res value :=
  match v with
  | VDict kvs => Ok (dict_get kvs k default)
  | _ => Raise AttributeError
  end.

(** ** The Python library the code calls *)

Record PyLib : Type := {
  json_loads : string -> option value;   (* None: json.JSONDecodeError *)
  json_dumps : value -> string;
  repr_str : value -> string;            (* str() of floats, lists, dicts *)
  upper : string -> string               (* str.upper *)
}.

(** [str(v)], as an f-string field renders it. *)
Definition py_str (lib : PyLib) (v : value) : string :=
  match v with
  | VNone => "None"
  | VBool true => "True"
  | VBool false => "False"
  | VInt z => of_Z z
  | VStr s => s
  | _ => repr_str lib v
  end.

(** [v[:n]]: strings and lists slice, every other value raises. *)
Definition slice_to (n : nat) (v : value) : res value :=
  match v with
  | VStr s => Ok (VStr (take n s))
  | VList l => Ok (VList (firstn n l))
  | _ => Raise TypeError
  end.

(** A library given by a finite table of [json.loads] facts, for closed
    examples: each example lists the facts about the library its run relies
    on; the fields that a run never reaches are left trivial. *)
Definition lib_of (loads : list (string * value)) : PyLib := {|
  json_loads := fun s => assoc s loads;
  json_dumps := fun _ => "";
  repr_str := fun _ => "";
  upper := fun s => s
|}.

(** Sequencing of computations that may raise. *)
Definition bind_res {A B : Type} (r : res A) (k : A -> res B) : res B :=
  match r with
  | Ok a => k a
  | Raise e => Raise e
  end.

Declare Scope res_scope.
Delimit Scope res_scope with res.
Notation "x <- r ;; k" := (bind_res r (fun x => k))
  (at level 61, r at next level, right associativity) : res_scope.

(** ** The world outside: the HTTP backend and the language model *)

Inductive http_method : Type := GET | POST.

Record request : Type := {
  req_method : http_method;
  req_url : string;
  req_headers : list (string * string);
  req_params : list (string * value);
  req_json : option value;
  req_timeout : Z                      (* seconds *)
}.

(** What one [await client.get/post(...)] comes back with. [body] is what
    [response.json()] yields, [None] when the body does not decode. *)
Inductive http_outcome : Type :=
| Response (status_code : Z) (body : option value)
| TimeoutException
| RequestError (msg : string).

Record world : Type := {
  backend_url : string;                (* LUNEF_BACKEND_URL *)
  cost_per_second_usdc : float;        (* VIDEO_COST_PER_SECOND *)
  send : request -> http_outcome;
  run : string -> string               (* ToolCallAgent.run *)
}.

Inductive event : Type :=
| Sent (r : request)
| Ran (prompt : string).

(** [response.json()] *)
Definition response_json (body : option value) : res value :=
  match body with
  | Some v => Ok v
  | None => Raise JSONDecodeError
  end.

(** ['{"error": "<msg>"}'], the shape every adapter spells by hand. *)
Definition error_json (msg : string) : string :=
  "{" ++ quoted "error" ++ ": " ++ quoted msg ++ "}".

Definition network_error (msg : string) : string :=
  error_json ("Network error: " ++ msg).

(** ** Tool adapters ([tools/*.py])

    Each [execute] returns what the Python coroutine returns or raises,
    together with the requests it sent. *)

Definition outcome : Type := (res string * list event)%type.

Module TagResolverTool.

Definition name : string := "resolve_tag".

(** [tag.lstrip("@").lower().strip()] *)
Definition clean_tag (tag : string) : string :=
  strip (lower (lstrip_char "@"%char tag)).

Definition request_for (w : world) (tag : string) : request := {|
  req_method := GET;
  req_url := backend_url w ++ "/api/v1/users/tag/" ++ clean_tag tag;
  req_headers := [];
  req_params := [];
  req_json := None;
  req_timeout := 10
|}.

Definition execute (lib : PyLib) (w : world) (tag : string) : outcome :=
  let clean_tag := clean_tag tag in
  if String.eqb clean_tag "" then (Ok (error_json "Empty tag provided"), [])
  else
    let req := request_for w tag in
    (match send w req with
     | Response status_code body =>
         if (status_code =? 200)%Z then
           (data <- response_json body ;;
            wallet_address <- get data "wallet_address" (VStr "") ;;
            display_name <- get data "display_name" (VStr clean_tag) ;;
            Ok ("{" ++ quoted "tag" ++ ": " ++ quoted ("@" ++ clean_tag) ++ ", "
                ++ quoted "address" ++ ": " ++ quoted (py_str lib wallet_address) ++ ", "
                ++ quoted "display_name" ++ ": " ++ quoted (py_str lib display_name) ++ "}"))%res
         else if (status_code =? 404)%Z then
           Ok (error_json ("Tag @" ++ clean_tag ++ " not found. Please check the spelling."))
         else
           Ok (error_json ("Failed to resolve tag: " ++ of_Z status_code))
     | TimeoutException => Ok (error_json "Request timed out. Please try again.")
     | RequestError e => Ok (network_error e)
     end, [Sent req]).

End TagResolverTool.

Module FXConversionTool.

Definition name : string := "convert_fiat_to_gas".

Definition supported : list string := ["GBP"; "EUR"; "USD"; "CHF"].

Definition request_for (w : world) (amount : float) (currency : string) : request := {|
  req_method := GET;
  req_url := backend_url w ++ "/api/v1/rates/fiat-to-gas";
  req_headers := [];
  req_params := [("fiat", VStr currency); ("amount", VFloat amount)];
  req_json := None;
  req_timeout := 10
|}.

Definition execute (lib : PyLib) (w : world) (amount : float) (currency : string) : outcome :=
  let currency := upper lib currency in
  if negb (existsb (String.eqb currency) supported) then
    (Ok (error_json ("Unsupported currency: " ++ currency ++ ". Use GBP, EUR, USD, or CHF.")), [])
  else if PrimFloat.leb amount PrimFloat.zero then
    (Ok (error_json "Amount must be positive"), [])
  else
    let req := request_for w amount currency in
    (match send w req with
     | Response status_code body =>
         if (status_code =? 200)%Z then
           (data <- response_json body ;;
            fiat_amount <- get data "fiat_amount" (VFloat amount) ;;
            fiat_currency <- get data "fiat_currency" (VStr currency) ;;
            gas_amount <- get data "gas_amount" (VStr "0") ;;
            fx_rate <- get data "fx_rate" (VInt 0) ;;
            gas_price_usd <- get data "gas_price_usd" (VInt 0) ;;
            Ok ("{" ++ quoted "fiat_amount" ++ ": " ++ py_str lib fiat_amount ++ ", "
                ++ quoted "fiat_currency" ++ ": " ++ quoted (py_str lib fiat_currency) ++ ", "
                ++ quoted "gas_amount" ++ ": " ++ quoted (py_str lib gas_amount) ++ ", "
                ++ quoted "fx_rate" ++ ": " ++ py_str lib fx_rate ++ ", "
                ++ quoted "gas_price_usd" ++ ": " ++ py_str lib gas_price_usd ++ "}"))%res
         else
           Ok (error_json ("Conversion failed: " ++ of_Z status_code))
     | TimeoutException => Ok (error_json "Conversion service timed out")
     | RequestError e => Ok (network_error e)
     end, [Sent req]).

End FXConversionTool.

Module BalanceCheckTool.

Definition name : string := "check_balance".

Definition request_for (w : world) (user_id : string) : request := {|
  req_method := GET;
  req_url := backend_url w ++ "/api/v1/wallets/balance";
  req_headers := [("X-User-Id", user_id)];
  req_params := [];
  req_json := None;
  req_timeout := 15
|}.

Definition execute (lib : PyLib) (w : world) (user_id : string) : outcome :=
  let req := request_for w user_id in
  (match send w req with
   | Response status_code body =>
       if (status_code =? 200)%Z then
         (data <- response_json body ;;
          gas_balance <- get data "gas_balance" (VStr "0") ;;
          fiat_equivalent <- get data "fiat_equivalent" (VInt 0) ;;
          fiat_currency <- get data "fiat_currency" (VStr "USD") ;;
          address <- get data "address" (VStr "") ;;
          Ok ("{" ++ quoted "gas_balance" ++ ": " ++ quoted (py_str lib gas_balance) ++ ", "
              ++ quoted "fiat_equivalent" ++ ": " ++ py_str lib fiat_equivalent ++ ", "
              ++ quoted "fiat_currency" ++ ": " ++ quoted (py_str lib fiat_currency) ++ ", "
              ++ quoted "address" ++ ": " ++ quoted (py_str lib address) ++ "}"))%res
       else if (status_code =? 404)%Z then
         Ok (error_json "Wallet not found. Please create a wallet first.")
       else
         Ok (error_json ("Failed to check balance: " ++ of_Z status_code))
   | TimeoutException =>
       Ok (error_json "Balance check timed out. The blockchain may be slow.")
   | RequestError e => Ok (network_error e)
   end, [Sent req]).

End BalanceCheckTool.

Module PaymentPreviewTool.

Definition name : string := "create_payment_preview".

Definition request_for (lib : PyLib) (w : world)
    (user_id to_address to_tag amount_gas : string)
    (fiat_amount : float) (fiat_currency : string) : request := {|
  req_method := POST;
  req_url := backend_url w ++ "/api/v1/payments/preview";
  req_headers := [("X-User-Id", user_id)];
  req_params := [];
  req_json := Some (VDict [("to_address", VStr to_address);
                           ("to_tag", VStr to_tag);
                           ("amount_gas", VStr amount_gas);
                           ("fiat_amount", VFloat fiat_amount);
                           ("fiat_currency", VStr (upper lib fiat_currency))]);
  req_timeout := 15
|}.

Definition execute (lib : PyLib) (w : world)
    (user_id to_address to_tag amount_gas : string)
    (fiat_amount : float) (fiat_currency : string) : outcome :=
  let req := request_for lib w user_id to_address to_tag amount_gas fiat_amount fiat_currency in
  (match send w req with
   | Response status_code body =>
       if (status_code =? 200)%Z then
         (data <- response_json body ;;
          preview_id <- get data "preview_id" VNone ;;
          from_address <- get data "from_address" VNone ;;
          to_address' <- get data "to_address" VNone ;;
          amount_gas' <- get data "amount_gas" VNone ;;
          estimated_fee <- get data "estimated_fee" (VStr "0.001") ;;
          total_gas <- get data "total_gas" VNone ;;
          shown_gas <- get data "amount_gas" VNone ;;
          Ok (json_dumps lib (VDict [
            ("preview_id", preview_id);
            ("from_address", from_address);
            ("to_address", to_address');
            ("to_tag", VStr to_tag);
            ("amount_gas", amount_gas');
            ("fiat_amount", VFloat fiat_amount);
            ("fiat_currency", VStr (upper lib fiat_currency));
            ("estimated_fee", estimated_fee);
            ("total_gas", total_gas);
            ("status", VStr "awaiting_confirmation");
            ("confirmation_message", VStr (
               "You're about to send " ++ py_str lib (VFloat fiat_amount) ++ " "
               ++ upper lib fiat_currency ++ " (approximately " ++ py_str lib shown_gas
               ++ " GAS) to " ++ to_tag
               ++ ". Please confirm by saying 'yes' or 'confirm'."))])))%res
       else if (status_code =? 400)%Z then
         (error_data <- response_json body ;;
          message <- get error_data "message" (VStr "Invalid payment request") ;;
          Ok (json_dumps lib (VDict [("error", message)])))%res
       else if (status_code =? 403)%Z then
         Ok (error_json "Insufficient balance for this payment")
       else
         Ok (error_json ("Failed to create preview: " ++ of_Z status_code))
   | TimeoutException => Ok (error_json "Payment preview timed out")
   | RequestError e => Ok (network_error e)
   end, [Sent req]).

End PaymentPreviewTool.

Module PaymentExecuteTool.

Definition name : string := "execute_payment".

(** [preview_id] is whatever the session holds: the f-string renders it
    with [str()]. *)
Definition request_for (lib : PyLib) (w : world) (user_id : string) (preview_id : value) : request := {|
  req_method := POST;
  req_url := backend_url w ++ "/api/v1/payments/" ++ py_str lib preview_id ++ "/execute";
  req_headers := [("X-User-Id", user_id)];
  req_params := [];
  req_json := None;
  req_timeout := 60
|}.

Definition timeout_warning (lib : PyLib) : string :=
  json_dumps lib (VDict [
    ("warning", VStr "Transaction may still be processing");
    ("message", VStr "The payment was submitted but confirmation timed out. Please check your transaction history.")]).

Definition execute (lib : PyLib) (w : world) (user_id : string) (preview_id : value) : outcome :=
  let req := request_for lib w user_id preview_id in
  (match send w req with
   | Response status_code body =>
       if (status_code =? 200)%Z then
         (data <- response_json body ;;
          tx_hash <- get data "tx_hash" VNone ;;
          explorer_url <- get data "explorer_url" VNone ;;
          amount_gas <- get data "amount_gas" VNone ;;
          to_tag <- get data "to_tag" VNone ;;
          status <- get data "status" (VStr "confirmed") ;;
          tx_head <- slice_to 16 tx_hash ;;
          Ok (json_dumps lib (VDict [
            ("success", VBool true);
            ("tx_hash", tx_hash);
            ("explorer_url", explorer_url);
            ("amount_gas", amount_gas);
            ("to_tag", to_tag);
            ("status", status);
            ("confirmation_message", VStr (
               "Payment sent successfully! " ++ py_str lib amount_gas ++ " GAS "
               ++ "has been sent to " ++ py_str lib to_tag ++ ". "
               ++ "Transaction: " ++ py_str lib tx_head ++ "..."))])))%res
       else if (status_code =? 404)%Z then
         Ok (error_json "Payment preview expired or not found. Please start a new payment.")
       else if (status_code =? 403)%Z then
         Ok (error_json "Insufficient balance or payment not confirmed")
       else if (status_code =? 409)%Z then
         Ok (error_json "Payment already executed")
       else
         Ok (error_json ("Payment failed: " ++ of_Z status_code))
   | TimeoutException => Ok (timeout_warning lib)
   | RequestError e => Ok (network_error e)
   end, [Sent req]).

End PaymentExecuteTool.

Module VideoGenerationTool.

Definition name : string := "generate_video".

(** [max(5, min(30, duration_seconds))] *)
Definition clamp (duration_seconds : Z) : Z := Z.max 5 (Z.min 30 duration_seconds).

(** [self.cost_per_second_usdc * duration_seconds], on the clamped duration. *)
Definition total_cost_usdc (w : world) (duration_seconds : Z) : float :=
  PrimFloat.mul (cost_per_second_usdc w) (PrimFloat.of_uint63 (Uint63.of_Z duration_seconds)).

Definition request_for (w : world) (user_id prompt : string)
    (duration_seconds : Z) (style : string) : request :=
  let duration_seconds := clamp duration_seconds in {|
  req_method := POST;
  req_url := backend_url w ++ "/api/v1/content/video/generate";
  req_headers := [("X-User-Id", user_id)];
  req_params := [];
  req_json := Some (VDict [("prompt", VStr prompt);
                           ("duration_seconds", VInt duration_seconds);
                           ("style", VStr style);
                           ("estimated_cost_usdc", VFloat (total_cost_usdc w duration_seconds))]);
  req_timeout := 120
|}.

Definition execute (lib : PyLib) (w : world) (user_id prompt : string)
    (duration_seconds : Z) (style : string) : outcome :=
  let req := request_for w user_id prompt duration_seconds style in
  let duration_seconds := clamp duration_seconds in
  let total_cost_usdc := total_cost_usdc w duration_seconds in
  (match send w req with
   | Response status_code body =>
       if (status_code =? 200)%Z then
         (data <- response_json body ;;
          video_url <- get data "video_url" VNone ;;
          thumbnail_url <- get data "thumbnail_url" VNone ;;
          cost_gas <- get data "cost_gas" VNone ;;
          purchase_id <- get data "purchase_id" VNone ;;
          shown_cost <- get data "cost_gas" (VStr "?") ;;
          Ok (json_dumps lib (VDict [
            ("success", VBool true);
            ("video_url", video_url);
            ("thumbnail_url", thumbnail_url);
            ("duration_seconds", VInt duration_seconds);
            ("style", VStr style);
            ("cost_gas", cost_gas);
            ("cost_usdc", VFloat total_cost_usdc);
            ("purchase_id", purchase_id);
            ("status", VStr "ready");
            ("message", VStr (
               "Video generated successfully! "
               ++ "Duration: " ++ of_Z duration_seconds ++ "s, Style: " ++ style ++ ". "
               ++ "Cost: " ++ py_str lib shown_cost ++ " GAS."))])))%res
       else if (status_code =? 402)%Z then
         Ok (json_dumps lib (VDict [
           ("error", VStr "Payment required");
           ("cost_usdc", VFloat total_cost_usdc);
           ("message", VStr "Video generation requires payment. Please ensure you have sufficient balance.")]))
       else if (status_code =? 403)%Z then
         Ok (error_json "Insufficient GAS balance for video generation")
       else if (status_code =? 429)%Z then
         Ok (error_json "Rate limited. Please try again in a few minutes.")
       else
         Ok (error_json ("Video generation failed: " ++ of_Z status_code))
   | TimeoutException =>
       Ok (json_dumps lib (VDict [
         ("status", VStr "processing");
         ("message", VStr ("Video generation is taking longer than expected. "
                           ++ "It will be ready soon - check your content library."))]))
   | RequestError e => Ok (network_error e)
   end, [Sent req]).

End VideoGenerationTool.

(** ** The tool manager: one entry per backend operation ([tools/__init__.py]) *)

Inductive call : Type :=
| resolve_tag (tag : string)
| convert_fiat_to_gas (amount : float) (currency : string)
| check_balance (user_id : string)
| create_payment_preview (user_id to_address to_tag amount_gas : string)
    (fiat_amount : float) (fiat_currency : string)
| execute_payment (user_id : string) (preview_id : value)
| generate_video (user_id prompt : string) (duration_seconds : Z) (style : string).

Definition tool_name (c : call) : string :=
  match c with
  | resolve_tag _ => TagResolverTool.name
  | convert_fiat_to_gas _ _ => FXConversionTool.name
  | check_balance _ => BalanceCheckTool.name
  | create_payment_preview _ _ _ _ _ _ => PaymentPreviewTool.name
  | execute_payment _ _ => PaymentExecuteTool.name
  | generate_video _ _ _ _ => VideoGenerationTool.name
  end.

Definition execute (lib : PyLib) (w : world) (c : call) : outcome :=
  match c with
  | resolve_tag tag => TagResolverTool.execute lib w tag
  | convert_fiat_to_gas amount currency => FXConversionTool.execute lib w amount currency
  | check_balance user_id => BalanceCheckTool.execute lib w user_id
  | create_payment_preview user_id to_address to_tag amount_gas fiat_amount fiat_currency =>
      PaymentPreviewTool.execute lib w user_id to_address to_tag amount_gas fiat_amount fiat_currency
  | execute_payment user_id preview_id => PaymentExecuteTool.execute lib w user_id preview_id
  | generate_video user_id prompt duration_seconds style =>
      VideoGenerationTool.execute lib w user_id prompt duration_seconds style
  end.

(** ** The payment agent ([agents/payment/payment_agent.py]) *)

Module PaymentAgent.

(** The two attributes [__init__] sets. [pending_preview_id] holds [None]
    or whatever [_extract_preview_id] returned. *)
Record agent : Type := {
  user_id : string;
  pending_preview_id : value
}.

Definition init (user_id : string) : agent :=
  {| user_id := user_id; pending_preview_id := VNone |}.

Definition set_pending (a : agent) (v : value) : agent :=
  {| user_id := user_id a; pending_preview_id := v |}.

Definition confirm_phrases : list string :=
  ["yes"; "yeah"; "yep"; "yup"; "confirm"; "confirmed";
   "do it"; "send it"; "go ahead"; "proceed"; "approve";
   "that's right"; "correct"; "ok"; "okay"; "sure"].

Definition cancel_phrases : list string :=
  ["no"; "nope"; "cancel"; "stop"; "wait"; "don't";
   "abort"; "nevermind"; "never mind"; "hold on"].

(** [for phrase in phrases: if phrase in text: return ...] *)
Fixpoint any_phrase_in (phrases : list string) (text : string) : bool :=
  match phrases with
  | [] => false
  | phrase :: rest => if contains phrase text then true else any_phrase_in rest text
  end.

Definition _check_confirmation (transcript : string) : string :=
  let transcript_lower := strip (lower transcript) in
  if any_phrase_in confirm_phrases transcript_lower then "confirmed"
  else if any_phrase_in cancel_phrases transcript_lower then "cancelled"
  else "unclear".

(** *** [re.search(uuid_pattern, response, re.IGNORECASE)] *)

(** [[0-9a-f]] under [re.IGNORECASE]. *)
Definition is_hex (c : ascii) : bool :=
  let n := N_of_ascii c in
  ((48 <=? n) && (n <=? 57) || (97 <=? n) && (n <=? 102) || (65 <=? n) && (n <=? 70))%N.

Inductive atom : Type := Hex | Dash.

Definition atom_matches (a : atom) (c : ascii) : bool :=
  match a with
  | Hex => is_hex c
  | Dash => Ascii.eqb c "-"%char
  end.

(** [[0-9a-f]{8}-[0-9a-f]{4}-[0-9a-f]{4}-[0-9a-f]{4}-[0-9a-f]{12}] *)
Definition uuid_pattern : list atom :=
  repeat Hex 8 ++ [Dash] ++ repeat Hex 4 ++ [Dash] ++ repeat Hex 4 ++ [Dash]
  ++ repeat Hex 4 ++ [Dash] ++ repeat Hex 12.

(** The text the pattern matches at the head of [s], if it does. *)
Fixpoint match_here (p : list atom) (s : string) : option string :=
  match p, s with
  | [], _ => Some EmptyString
  | _ :: _, EmptyString => None
  | a :: p', String c s' =>
      if atom_matches a c then
        match match_here p' s' with
        | Some m => Some (String c m)
        | None => None
        end
      else None
  end.

(** Leftmost match, as [re.search] finds it. *)
Fixpoint search (p : list atom) (s : string) : option string :=
  match match_here p s with
  | Some m => Some m
  | None =>
      match s with
      | EmptyString => None
      | String _ s' => search p s'
      end
  end.

(** *** [re.search(r'\{[^}]+\}', response)] *)

(** [s] up to and including its first closing brace. *)
Fixpoint through_brace (s : string) : option string :=
  match s with
  | EmptyString => None
  | String c s' =>
      if Ascii.eqb c "}"%char then Some (String c EmptyString)
      else match through_brace s' with
           | Some m => Some (String c m)
           | None => None
           end
  end.

(** Leftmost match: an opening brace, one character or more that is not a
    closing brace, then the first closing brace. *)
Fixpoint json_fragment (s : string) : option string :=
  match s with
  | EmptyString => None
  | String c s' =>
      let here :=
        if Ascii.eqb c "{"%char then
          match s' with
          | String d _ =>
              if Ascii.eqb d "}"%char then None
              else match through_brace s' with
                   | Some m => Some (String c m)
                   | None => None
                   end
          | EmptyString => None
          end
        else None in
      match here with
      | Some m => Some m
      | None => json_fragment s'
      end
  end.

Definition _extract_preview_id (lib : PyLib) (response : string) : res value :=
  match search uuid_pattern response with
  | Some m => Ok (VStr m)
  | None =>
      if contains "{" response then
        match json_fragment response with
        | Some fragment =>
            match json_loads lib fragment with
            | Some data => get data "preview_id" VNone
            | None => Ok VNone               (* except json.JSONDecodeError: pass *)
            end
        | None => Ok VNone
        end
      else Ok VNone
  end.

(** What a method call leaves behind: its result, the agent afterwards, and
    the effects it performed, in order. *)
Definition step : Type := (res value * agent * list event)%type.

Definition result_of (s : step) : res value := fst (fst s).
Definition agent_of (s : step) : agent := snd (fst s).
Definition events_of (s : step) : list event := snd s.

Definition reply (response : value) (action : string) (data : option value) : value :=
  VDict ([("response", response); ("action", VStr action)]
         ++ match data with Some d => [("data", d)] | None => [] end).

Definition _execute_pending_payment (lib : PyLib) (w : world) (self : agent) : step :=
  if negb (truthy (pending_preview_id self)) then
    (Ok (reply (VStr "No pending payment to execute.") "error" None), self, [])
  else
    let '(result_str, sent) :=
      PaymentExecuteTool.execute lib w (user_id self) (pending_preview_id self) in
    match result_str with
    | Raise e => (Raise e, self, sent)
    | Ok result_str =>
        (* Clear pending preview *)
        let self := set_pending self VNone in
        (match json_loads lib result_str with
         | Some result =>
             (success <- get result "success" VNone ;;
              if truthy success then
                (message <- get result "confirmation_message" (VStr "Payment sent successfully!") ;;
                 tx_hash <- get result "tx_hash" VNone ;;
                 explorer_url <- get result "explorer_url" VNone ;;
                 Ok (reply message "confirmed"
                       (Some (VDict [("tx_hash", tx_hash); ("explorer_url", explorer_url)]))))
              else
                (error <- get result "error" (VStr "Unknown error") ;;
                 Ok (reply (VStr ("Payment failed: " ++ py_str lib error)) "error" (Some result))))%res
         | None =>
             Ok (reply (VStr "Payment status unclear. Please check your transaction history.")
                   "error" None)
         end, self, sent)
    end.

Definition prompt_for (self : agent) (transcript : string) : string :=
  "User ID: " ++ user_id self ++ nl ++ "User says: " ++ transcript.

Definition has_preview_marker (response : string) : bool :=
  contains "awaiting_confirmation" (lower response) || contains "confirm" (lower response).

Definition process_voice_input (lib : PyLib) (w : world) (self : agent) (transcript : string) : step :=
  if truthy (pending_preview_id self) then
    let confirmation_status := _check_confirmation transcript in
    if String.eqb confirmation_status "confirmed" then
      _execute_pending_payment lib w self
    else if String.eqb confirmation_status "cancelled" then
      (Ok (reply (VStr "Payment cancelled. Is there anything else I can help you with?")
             "cancelled" None),
       set_pending self VNone, [])
    else
      (Ok (reply (VStr "I didn't catch that. Please say 'yes' to confirm the payment or 'no' to cancel.")
             "awaiting_confirmation" None),
       self, [])
  else
    let prompt := prompt_for self transcript in
    let response := run w prompt in
    if has_preview_marker response then
      match _extract_preview_id lib response with
      | Ok preview_id =>
          let self := if truthy preview_id then set_pending self preview_id else self in
          (Ok (reply (VStr response) "preview" (Some (VDict [("preview_id", preview_id)]))),
           self, [Ran prompt])
      | Raise e => (Raise e, self, [Ran prompt])
      end
    else
      (Ok (reply (VStr response) "info" None), self, [Ran prompt]).

End PaymentAgent.

(** * Statements: replies, tables and example worlds *)

Import PaymentAgent.

Definition unclear_reply : value :=
  reply (VStr "I didn't catch that. Please say 'yes' to confirm the payment or 'no' to cancel.")
        "awaiting_confirmation" None.

Definition cancelled_reply : value :=
  reply (VStr "Payment cancelled. Is there anything else I can help you with?")
        "cancelled" None.

Definition no_pending_reply : value :=
  reply (VStr "No pending payment to execute.") "error" None.

(** A backend that answers every request with [o], and a model that answers
    every prompt with [response]. *)
Definition constant_world (o : http_outcome) (response : string) : world := {|
  backend_url := "http://localhost:8080";
  cost_per_second_usdc := 1%float;
  send := fun _ => o;
  run := fun _ => response
|}.

Definition already_executed : string := error_json "Payment already executed".

(** The one fact about [json.loads] the 409 scenario uses. *)
Definition lib_409 : PyLib :=
  lib_of [(already_executed, VDict [("error", VStr "Payment already executed")])].

Definition awaiting (preview_id : string) : agent :=
  {| user_id := "550e8400-e29b-41d4-a716-446655440000"; pending_preview_id := VStr preview_id |}.


(** A backend that knows one tag, under one path. *)
Definition alice_world : world := {|
  backend_url := "http://localhost:8080";
  cost_per_second_usdc := 1%float;
  send := fun r =>
    if String.eqb (req_url r) "http://localhost:8080/api/v1/users/tag/alice"
    then Response 200 (Some (VDict [("wallet_address", VStr "NXV7ZhHiyM1aHXwpVsRZC6BwNFP2jghXAq");
                                    ("display_name", VStr "Alice")]))
    else Response 404 None;
  run := fun _ => ""
|}.

(** The whole of [m] matches the UUID pattern. *)
Definition uuid_shaped (m : string) : Prop := match_here uuid_pattern m = Some m.


(** A fact about [json.loads]: a text that opens with a brace decodes to an
    object or not at all. *)
Definition decodes_objects (lib : PyLib) : Prop :=
  forall (s : string) (v : value),
    startswith "{" s = true -> json_loads lib s = Some v -> exists kvs, v = VDict kvs.

Definition preview_reply (response : string) (preview_id : value) : value :=
  reply (VStr response) "preview" (Some (VDict [("preview_id", preview_id)])).




(** A model response with the marker and an object that names no preview. *)
Definition no_id_text : string :=
  "Please confirm the amount {" ++ quoted "amount_gas" ++ ": 5}".

Definition lib_no_id : PyLib :=
  lib_of [("{" ++ quoted "amount_gas" ++ ": 5}", VDict [("amount_gas", VInt 5)])].

(** *** Status codes *)

(** The codes the specification lists as known to every operation. *)
Definition claimed_known_codes : list Z := [404; 403; 409; 429; 402]%Z.

Fixpoint lookup_code (status_code : Z) (table : list (Z * string)) : option string :=
  match table with
  | [] => None
  | (code, msg) :: rest => if (status_code =? code)%Z then Some msg else lookup_code status_code rest
  end.

(** The codes each adapter knows, with the message it answers. *)
Definition error_table (c : call) : list (Z * string) :=
  match c with
  | resolve_tag tag =>
      [(404, "Tag @" ++ TagResolverTool.clean_tag tag ++ " not found. Please check the spelling.")]
  | convert_fiat_to_gas _ _ => []
  | check_balance _ =>
      [(404, "Wallet not found. Please create a wallet first.")]
  | create_payment_preview _ _ _ _ _ _ =>
      [(403, "Insufficient balance for this payment")]
  | execute_payment _ _ =>
      [(404, "Payment preview expired or not found. Please start a new payment.");
       (403, "Insufficient balance or payment not confirmed");
       (409, "Payment already executed")]
  | generate_video _ _ _ _ =>
      [(403, "Insufficient GAS balance for video generation");
       (429, "Rate limited. Please try again in a few minutes.")]
  end%Z.

(** The two codes answered with more than a fixed message: 400 of
    [create_payment_preview] passes the backend's message on, 402 of
    [generate_video] adds the estimated cost. *)
Definition special_status (lib : PyLib) (w : world) (c : call)
    (status_code : Z) (body : option value) : option (res string) :=
  match c with
  | create_payment_preview _ _ _ _ _ _ =>
      if (status_code =? 400)%Z then
        Some (error_data <- response_json body ;;
              message <- get error_data "message" (VStr "Invalid payment request") ;;
              Ok (json_dumps lib (VDict [("error", message)])))%res
      else None
  | generate_video _ _ duration_seconds _ =>
      if (status_code =? 402)%Z then
        Some (Ok (json_dumps lib (VDict [
          ("error", VStr "Payment required");
          ("cost_usdc", VFloat (VideoGenerationTool.total_cost_usdc w
                                  (VideoGenerationTool.clamp duration_seconds)));
          ("message", VStr "Video generation requires payment. Please ensure you have sufficient balance.")])))
      else None
  | _ => None
  end.

Definition generic_prefix (c : call) : string :=
  match c with
  | resolve_tag _ => "Failed to resolve tag: "
  | convert_fiat_to_gas _ _ => "Conversion failed: "
  | check_balance _ => "Failed to check balance: "
  | create_payment_preview _ _ _ _ _ _ => "Failed to create preview: "
  | execute_payment _ _ => "Payment failed: "
  | generate_video _ _ _ _ => "Video generation failed: "
  end.

(** The generic error: the operation's prefix, then the status code. *)
Definition generic_error (c : call) (status_code : Z) : string :=
  error_json (generic_prefix c ++ of_Z status_code).

(** *** Returning and raising *)


(** What each adapter answers when the request times out. *)
Definition timed_out_result (lib : PyLib) (c : call) : string :=
  match c with
  | resolve_tag _ => error_json "Request timed out. Please try again."
  | convert_fiat_to_gas _ _ => error_json "Conversion service timed out"
  | check_balance _ => error_json "Balance check timed out. The blockchain may be slow."
  | create_payment_preview _ _ _ _ _ _ => error_json "Payment preview timed out"
  | execute_payment _ _ => PaymentExecuteTool.timeout_warning lib
  | generate_video _ _ _ _ =>
      json_dumps lib (VDict [
        ("status", VStr "processing");
        ("message", VStr ("Video generation is taking longer than expected. "
                          ++ "It will be ready soon - check your content library."))])
  end.


(** *** Proof automation *)

(** Case analysis on the status code an adapter compares. *)
Ltac by_status_code :=
  repeat match goal with
         | |- context [(?x =? ?k)%Z] =>
             destruct (Z.eqb_spec x k); [subst x; simpl; try discriminate |]
         end;
  try reflexivity; try congruence.


(** * Further statements *)

(** A phrase that neither starts nor ends with white space. *)
Definition starts_solid (p : string) : bool :=
  match p with
  | EmptyString => false
  | String c _ => negb (isspace c)
  end.

Fixpoint ends_solid (p : string) : bool :=
  match p with
  | EmptyString => false
  | String c EmptyString => negb (isspace c)
  | String _ p' => ends_solid p'
  end.

Definition solid (p : string) : bool := starts_solid p && ends_solid p.

(** The classifier without [strip]: the two scans over the text as given. *)
Definition classify (text : string) : string :=
  if any_phrase_in confirm_phrases text then "confirmed"
  else if any_phrase_in cancel_phrases text then "cancelled"
  else "unclear".

(** A conversation: [process_voice_input] called once per utterance on the
    same agent object, as [main] does; the backend and the model may answer
    differently at every turn, so each turn comes with its own world. *)
Fixpoint converse (lib : PyLib) (self : agent) (turns : list (world * string))
    : agent * list event :=
  match turns with
  | [] => (self, [])
  | (w, transcript) :: rest =>
      let s := process_voice_input lib w self transcript in
      let (self', later) := converse lib (agent_of s) rest in
      (self', (events_of s ++ later)%list)
  end.

(** The two states of the session: no preview held, or a truthy one. *)
Definition idle_or_awaiting (self : agent) : Prop :=
  pending_preview_id self = VNone \/ truthy (pending_preview_id self) = true.

(** The three utterances of [main], with a model that announces a preview
    for the second and a backend that accepts the execution. *)
Definition main_turns : list (world * string) :=
  [ (constant_world TimeoutException "Your balance is 12.5 GAS.", "What's my balance?");
    (constant_world TimeoutException
       "Preview 123e4567-e89b-12d3-a456-426614174000 is awaiting_confirmation.",
     "Send 200 pounds to @alice");
    (constant_world (Response 409 None) "", "Yes, confirm") ].

(** The message and the object [execute_payment] builds from a 200 answer
    [kvs] whose transaction hash is the string [tx]. *)
Definition executed_message (lib : PyLib) (kvs : list (string * value)) (tx : string) : string :=
  "Payment sent successfully! " ++ py_str lib (dict_get kvs "amount_gas" VNone) ++ " GAS "
  ++ "has been sent to " ++ py_str lib (dict_get kvs "to_tag" VNone) ++ ". "
  ++ "Transaction: " ++ take 16 tx ++ "...".

Definition executed_payload (lib : PyLib) (kvs : list (string * value)) (tx : string) : value :=
  VDict [("success", VBool true);
         ("tx_hash", VStr tx);
         ("explorer_url", dict_get kvs "explorer_url" VNone);
         ("amount_gas", dict_get kvs "amount_gas" VNone);
         ("to_tag", dict_get kvs "to_tag" VNone);
         ("status", dict_get kvs "status" (VStr "confirmed"));
         ("confirmation_message", VStr (executed_message lib kvs tx))].

(** The object behind [timeout_warning]. *)
Definition timeout_payload : value :=
  VDict [("warning", VStr "Transaction may still be processing");
         ("message", VStr "The payment was submitted but confirmation timed out. Please check your transaction history.")].

(** The message [execute_payment] answers a status other than 200 with. *)
Definition execute_error_message (status_code : Z) : string :=
  match lookup_code status_code (error_table (execute_payment "" VNone)) with
  | Some msg => msg
  | None => "Payment failed: " ++ of_Z status_code
  end.

(** A library that serialises every object to [text] and decodes [text]
    back to [v]: the library as one run sees it, when the run serialises
    [v] and nothing else. *)
Definition lib_with (text : string) (v : value) : PyLib := {|
  json_loads := fun s => if String.eqb s text then Some v else None;
  json_dumps := fun _ => text;
  repr_str := fun _ => "";
  upper := fun s => s
|}.

Definition executed_answer : list (string * value) :=
  [("tx_hash", VStr "0x9f3c2a77d1e04b5aa8c6f0e2b1d4c3a59e7f6b8d");
   ("explorer_url", VStr "https://xexplorer.neo.org/tx/0x9f3c2a77d1e04b5aa8c6f0e2b1d4c3a59e7f6b8d");
   ("amount_gas", VStr "12.5");
   ("to_tag", VStr "@alice")].

(** [json.dumps] of [timeout_payload]. *)
Definition timeout_text : string :=
  "{" ++ quoted "warning" ++ ": " ++ quoted "Transaction may still be processing" ++ ", "
  ++ quoted "message" ++ ": "
  ++ quoted "The payment was submitted but confirmation timed out. Please check your transaction history."
  ++ "}".

(** [json.dumps] of the object built from [executed_answer]. *)
Definition executed_text : string :=
  "{" ++ quoted "success" ++ ": true, "
  ++ quoted "tx_hash" ++ ": " ++ quoted "0x9f3c2a77d1e04b5aa8c6f0e2b1d4c3a59e7f6b8d" ++ ", "
  ++ quoted "explorer_url" ++ ": "
  ++ quoted "https://xexplorer.neo.org/tx/0x9f3c2a77d1e04b5aa8c6f0e2b1d4c3a59e7f6b8d" ++ ", "
  ++ quoted "amount_gas" ++ ": " ++ quoted "12.5" ++ ", "
  ++ quoted "to_tag" ++ ": " ++ quoted "@alice" ++ ", "
  ++ quoted "status" ++ ": " ++ quoted "confirmed" ++ ", "
  ++ quoted "confirmation_message" ++ ": "
  ++ quoted "Payment sent successfully! 12.5 GAS has been sent to @alice. Transaction: 0x9f3c2a77d1e04b..."
  ++ "}".

(** The same world with another backend behind it. *)
Definition with_backend (w : world) (send' : request -> http_outcome) : world := {|
  backend_url := backend_url w;
  cost_per_second_usdc := cost_per_second_usdc w;
  send := send';
  run := run w
|}.

(** The confirmation message [create_payment_preview] puts in its result. *)
Definition preview_message (lib : PyLib) (to_tag : string) (fiat_amount : float)
    (fiat_currency : string) (shown_gas : value) : string :=
  "You're about to send " ++ py_str lib (VFloat fiat_amount) ++ " "
  ++ upper lib fiat_currency ++ " (approximately " ++ py_str lib shown_gas
  ++ " GAS) to " ++ to_tag
  ++ ". Please confirm by saying 'yes' or 'confirm'.".

(** * Properties *)

(** ** Strings *)

Lemma startswith_spec (p s : string) :
  startswith p s = true <-> exists post, s = p ++ post.
Proof.
  revert s; induction p as [|a p IH]; intros s; simpl.
  - split; [intros _; now exists s | reflexivity].
  - destruct s as [|b s].
    + split; [discriminate | intros [post H]; discriminate].
    + rewrite andb_true_iff, Ascii.eqb_eq, IH. split.
      * intros [-> [post ->]]. now exists post.
      * intros [post H]. injection H as -> ->. split; [reflexivity | now exists post].
Qed.

Lemma contains_here (needle post : string) : contains needle (needle ++ post) = true.
Proof.
  assert (H : startswith needle (needle ++ post) = true)
    by (apply startswith_spec; now exists post).
  destruct (needle ++ post); simpl in *; rewrite H; reflexivity.
Qed.

Lemma contains_spec (needle hay : string) :
  contains needle hay = true <-> substring needle hay.
Proof.
  split.
  - induction hay as [|c hay IH]; simpl; rewrite orb_true_iff.
    + intros [H | H]; [| discriminate].
      apply startswith_spec in H as [post ->]. now exists "", post.
    + intros [H | H].
      * apply startswith_spec in H as [post ->]. now exists "", post.
      * destruct (IH H) as (pre & post & ->). now exists (String c pre), post.
  - intros (pre & post & ->). induction pre as [|c pre IH]; simpl.
    + apply contains_here.
    + rewrite IH. apply orb_true_r.
Qed.

Lemma contains_false (needle hay : string) :
  contains needle hay = false <-> ~ substring needle hay.
Proof.
  rewrite <- contains_spec. destruct (contains needle hay); intuition congruence.
Qed.

Lemma substring_refl (s : string) : substring s s.
Proof.
  exists "", "". simpl. induction s as [|c s IH]; simpl; congruence.
Qed.

Lemma substring_cons (c : ascii) (m s : string) :
  substring m s -> substring m (String c s).
Proof. intros (pre & post & ->). now exists (String c pre), post. Qed.

Lemma substring_prefix (m post : string) : substring m (m ++ post).
Proof. now exists "", post. Qed.

(** ** The confirmation classifier *)

Lemma any_phrase_in_spec (phrases : list string) (text : string) :
  any_phrase_in phrases text = true <->
  exists phrase, In phrase phrases /\ substring phrase text.
Proof.
  induction phrases as [|p ps IH]; simpl.
  - split; [discriminate | intros (? & [] & _)].
  - destruct (contains p text) eqn:E.
    + split; [intros _ | reflexivity].
      exists p. split; [now left | now apply contains_spec].
    + rewrite IH. split.
      * intros (q & Hq & Hs). exists q. split; [now right | exact Hs].
      * intros (q & [<- | Hq] & Hs).
        -- apply contains_spec in Hs. congruence.
        -- now exists q.
Qed.

Lemma any_phrase_in_none (phrases : list string) (text : string) :
  any_phrase_in phrases text = false <->
  forall phrase, In phrase phrases -> ~ substring phrase text.
Proof.
  split.
  - intros E p Hp Hs.
    assert (any_phrase_in phrases text = true) by (apply any_phrase_in_spec; eauto).
    congruence.
  - intros H. destruct (any_phrase_in phrases text) eqn:E; [| reflexivity].
    apply any_phrase_in_spec in E as (p & Hp & Hs). now destruct (H p Hp).
Qed.

(** The classifier, read off the two phrase scans. *)
Lemma check_confirmation_cases (transcript : string) :
  let text := strip (lower transcript) in
  _check_confirmation transcript =
    if any_phrase_in confirm_phrases text then "confirmed"
    else if any_phrase_in cancel_phrases text then "cancelled"
    else "unclear".
Proof. reflexivity. Qed.

(** C2. An utterance whose lower-cased, trimmed form contains a confirm
    phrase and a cancel phrase is classified "confirmed": the confirm
    phrases are scanned first. *)
Theorem confirm_phrase_takes_precedence (transcript p q : string) :
  In p confirm_phrases ->
  In q cancel_phrases ->
  substring p (strip (lower transcript)) ->
  substring q (strip (lower transcript)) ->
  _check_confirmation transcript = "confirmed".
Proof.
  intros Hp _ Hsp _. unfold _check_confirmation.
  replace (any_phrase_in confirm_phrases (strip (lower transcript))) with true;
    [reflexivity |].
  symmetry. apply any_phrase_in_spec. now exists p.
Qed.

Lemma confirm_phrase_takes_precedence_witness :
  In "yes" confirm_phrases /\
  In "cancel" cancel_phrases /\
  substring "yes" (strip (lower "  Yes, cancel it ")) /\
  substring "cancel" (strip (lower "  Yes, cancel it ")) /\
  _check_confirmation "  Yes, cancel it " = "confirmed".
Proof.
  assert (Hp : In "yes" confirm_phrases) by (simpl; tauto).
  assert (Hq : In "cancel" cancel_phrases) by (simpl; tauto).
  assert (Hsp : substring "yes" (strip (lower "  Yes, cancel it ")))
    by (exists "", ", cancel it"; reflexivity).
  assert (Hsq : substring "cancel" (strip (lower "  Yes, cancel it ")))
    by (exists "yes, ", " it"; reflexivity).
  exact (conj Hp (conj Hq (conj Hsp (conj Hsq
    (confirm_phrase_takes_precedence "  Yes, cancel it " "yes" "cancel" Hp Hq Hsp Hsq))))).
Defined.

(** C3. An utterance whose lower-cased, trimmed form contains no confirm
    phrase and no cancel phrase is classified "unclear"; processed while a
    preview is pending, it leaves [pending_preview_id] as it was, performs
    no effect, and the reply asks the caller to repeat, with action
    "awaiting_confirmation". *)
Theorem no_phrase_is_unclear (lib : PyLib) (w : world) (self : agent) (transcript : string) :
  (forall p, In p confirm_phrases -> ~ substring p (strip (lower transcript))) ->
  (forall q, In q cancel_phrases -> ~ substring q (strip (lower transcript))) ->
  truthy (pending_preview_id self) = true ->
  let s := process_voice_input lib w self transcript in
  _check_confirmation transcript = "unclear" /\
  result_of s = Ok unclear_reply /\
  agent_of s = self /\
  pending_preview_id (agent_of s) = pending_preview_id self /\
  events_of s = [].
Proof.
  intros Hc Hn Hp.
  apply any_phrase_in_none in Hc, Hn.
  assert (E : _check_confirmation transcript = "unclear")
    by (unfold _check_confirmation; rewrite Hc, Hn; reflexivity).
  unfold process_voice_input. rewrite Hp, E. simpl.
  repeat split.
Qed.

Lemma no_phrase_is_unclear_witness :
  let self := {| user_id := "u-1"; pending_preview_id := VStr "pv-1" |} in
  let w := {| backend_url := "http://localhost:8080"; cost_per_second_usdc := 1%float;
              send := fun _ => TimeoutException; run := fun _ => "" |} in
  let s := process_voice_input (lib_of []) w self "Hmm, what?" in
  _check_confirmation "Hmm, what?" = "unclear" /\
  result_of s = Ok unclear_reply /\
  agent_of s = self /\
  pending_preview_id (agent_of s) = VStr "pv-1" /\
  events_of s = [].
Proof.
  intros self w.
  apply (no_phrase_is_unclear (lib_of []) w self "Hmm, what?");
    [apply any_phrase_in_none; reflexivity | apply any_phrase_in_none; reflexivity
    | reflexivity].
Defined.

(** ** The session state machine *)

(** With no preview pending the utterance is not classified: it goes to the
    agent run, and that is the only effect of the call. *)
Lemma idle_forwards_to_run (lib : PyLib) (w : world) (self : agent) (transcript : string) :
  truthy (pending_preview_id self) = false ->
  events_of (process_voice_input lib w self transcript) = [Ran (prompt_for self transcript)].
Proof.
  intros Hp. unfold process_voice_input. rewrite Hp.
  destruct (has_preview_marker _); [| reflexivity].
  destruct (_extract_preview_id _ _); reflexivity.
Qed.

Lemma execute_payment_sends_once (lib : PyLib) (w : world) (user_id : string) (preview_id : value) :
  snd (PaymentExecuteTool.execute lib w user_id preview_id) =
  [Sent (PaymentExecuteTool.request_for lib w user_id preview_id)].
Proof. reflexivity. Qed.

(** What [_execute_pending_payment] does once the adapter has returned. *)
Lemma execute_pending_after_return (lib : PyLib) (w : world) (self : agent) (result_str : string) :
  truthy (pending_preview_id self) = true ->
  fst (PaymentExecuteTool.execute lib w (user_id self) (pending_preview_id self)) = Ok result_str ->
  let s := _execute_pending_payment lib w self in
  agent_of s = set_pending self VNone /\
  events_of s = [Sent (PaymentExecuteTool.request_for lib w (user_id self) (pending_preview_id self))].
Proof.
  intros Hp Hr. unfold _execute_pending_payment. rewrite Hp. simpl negb. cbv iota.
  pose proof (execute_payment_sends_once lib w (user_id self) (pending_preview_id self)) as Hs.
  destruct (PaymentExecuteTool.execute lib w (user_id self) (pending_preview_id self)) as [r sent].
  simpl in Hr, Hs. subst r sent. split; reflexivity.
Qed.

(** Once a confirmed utterance has triggered an execute attempt and the
    adapter has returned, whatever it returned (a success, an error such as
    the 409 one, the time-out warning, a text that does not parse),
    [pending_preview_id] is [None]; one request was sent, and the next
    utterance, whatever it is, goes to the agent run and sends nothing. *)
Theorem execute_attempt_clears_pending
    (lib : PyLib) (w : world) (self : agent) (transcript result_str : string) :
  truthy (pending_preview_id self) = true ->
  _check_confirmation transcript = "confirmed" ->
  fst (PaymentExecuteTool.execute lib w (user_id self) (pending_preview_id self)) = Ok result_str ->
  let s := process_voice_input lib w self transcript in
  pending_preview_id (agent_of s) = VNone /\
  events_of s = [Sent (PaymentExecuteTool.request_for lib w (user_id self) (pending_preview_id self))] /\
  forall (w' : world) (transcript' : string),
    events_of (process_voice_input lib w' (agent_of s) transcript') =
    [Ran (prompt_for (agent_of s) transcript')].
Proof.
  intros Hp Hc Hr. unfold process_voice_input. rewrite Hp, Hc. simpl String.eqb. cbv iota.
  destruct (execute_pending_after_return lib w self result_str Hp Hr) as [Ha He].
  cbv zeta in Ha, He. rewrite Ha, He.
  split; [reflexivity | split; [reflexivity |]].
  intros w' t'. now apply idle_forwards_to_run.
Qed.

(** C4. While a preview is pending, an utterance classified "cancelled"
    sets [pending_preview_id] to [None] and is answered with action
    "cancelled"; the call performs no effect at all, so no request reaches
    the backend and [execute_payment] is not invoked. *)
Theorem cancel_clears_without_network
    (lib : PyLib) (w : world) (self : agent) (transcript : string) :
  truthy (pending_preview_id self) = true ->
  _check_confirmation transcript = "cancelled" ->
  let s := process_voice_input lib w self transcript in
  result_of s = Ok cancelled_reply /\
  pending_preview_id (agent_of s) = VNone /\
  events_of s = [].
Proof.
  intros Hp Hc. unfold process_voice_input. rewrite Hp, Hc. simpl.
  repeat split.
Qed.

Lemma execute_attempt_clears_pending_witness :
  let w := constant_world (Response 409 None) "" in
  let s := process_voice_input lib_409 w (awaiting "pv-1") "Yes, confirm" in
  pending_preview_id (agent_of s) = VNone /\
  events_of s = [Sent (PaymentExecuteTool.request_for lib_409 w (user_id (awaiting "pv-1")) (VStr "pv-1"))] /\
  forall (w' : world) (transcript' : string),
    events_of (process_voice_input lib_409 w' (agent_of s) transcript') =
    [Ran (prompt_for (agent_of s) transcript')].
Proof.
  intros w.
  exact (execute_attempt_clears_pending lib_409 w (awaiting "pv-1") "Yes, confirm"
           already_executed eq_refl eq_refl eq_refl).
Defined.

(** Scenario: the backend answers 409 to the execute request. *)
Example already_executed_is_surfaced :
  process_voice_input lib_409 (constant_world (Response 409 None) "") (awaiting "pv-1") "yes" =
  (Ok (reply (VStr "Payment failed: Payment already executed") "error"
         (Some (VDict [("error", VStr "Payment already executed")]))),
   set_pending (awaiting "pv-1") VNone,
   [Sent {| req_method := POST;
            req_url := "http://localhost:8080/api/v1/payments/pv-1/execute";
            req_headers := [("X-User-Id", "550e8400-e29b-41d4-a716-446655440000")];
            req_params := [];
            req_json := None;
            req_timeout := 60 |}]).
Proof. reflexivity. Qed.

(** When the adapter raises instead of returning, the exception leaves
    [_execute_pending_payment] before the clearing assignment. *)
Lemma execute_raise_keeps_pending (lib : PyLib) (w : world) (self : agent) (e : exn) :
  truthy (pending_preview_id self) = true ->
  fst (PaymentExecuteTool.execute lib w (user_id self) (pending_preview_id self)) = Raise e ->
  let s := _execute_pending_payment lib w self in
  result_of s = Raise e /\ agent_of s = self.
Proof.
  intros Hp Hr. unfold _execute_pending_payment. rewrite Hp. simpl negb. cbv iota.
  destruct (PaymentExecuteTool.execute lib w (user_id self) (pending_preview_id self)) as [r sent].
  simpl in Hr. subst r. split; reflexivity.
Qed.

Lemma cancel_clears_without_network_witness :
  let s := process_voice_input (lib_of []) (constant_world TimeoutException "") (awaiting "pv-1")
             "No, cancel that" in
  result_of s = Ok cancelled_reply /\
  pending_preview_id (agent_of s) = VNone /\
  events_of s = [].
Proof.
  exact (cancel_clears_without_network (lib_of []) (constant_world TimeoutException "")
           (awaiting "pv-1") "No, cancel that" eq_refl eq_refl).
Defined.

(** Returning and clearing: on every outcome of the request but a 200
    answer the adapter returns and the pending preview is cleared; on a 200
    answer it is cleared exactly when the adapter returns. *)
Lemma pending_after_execute (lib : PyLib) (w : world) (self : agent) :
  truthy (pending_preview_id self) = true ->
  let s := _execute_pending_payment lib w self in
  let r := fst (PaymentExecuteTool.execute lib w (user_id self) (pending_preview_id self)) in
  agent_of s = (if returns r then set_pending self VNone else self) /\
  match send w (PaymentExecuteTool.request_for lib w (user_id self) (pending_preview_id self)) with
  | Response status_code _ => status_code <> 200%Z -> returns r = true
  | _ => returns r = true
  end.
Proof.
  intros Hp. cbv zeta. split.
  - destruct (fst (PaymentExecuteTool.execute lib w (user_id self) (pending_preview_id self)))
      as [result_str | e] eqn:E.
    + now destruct (execute_pending_after_return lib w self result_str Hp E).
    + now destruct (execute_raise_keeps_pending lib w self e Hp E).
  - unfold PaymentExecuteTool.execute. simpl.
    destruct (send w _); try reflexivity.
    intros H. apply Z.eqb_neq in H. rewrite H. by_status_code.
Qed.

(** C5, as stated, fails: with no preview pending the utterance "yes" is
    not classified; it is forwarded to the agent run and the reply is the
    model's text with action "info", not a "no pending payment" reply. *)
Lemma yes_when_idle_goes_to_the_model :
  pending_preview_id (init "u-1") = VNone /\
  _check_confirmation "yes" = "confirmed" /\
  process_voice_input (lib_of []) (constant_world TimeoutException "Hello! How can I help?")
    (init "u-1") "yes" =
  (Ok (reply (VStr "Hello! How can I help?") "info" None),
   init "u-1",
   [Ran (prompt_for (init "u-1") "yes")]).
Proof. repeat split. Qed.

Lemma reply_action (response : value) (action : string) (data : option value) :
  get (reply response action data) "action" VNone = Ok (VStr action).
Proof. reflexivity. Qed.

(** The replies of [process_voice_input] with no preview pending carry the
    model's text and the action "info" or "preview". *)
Lemma idle_reply (lib : PyLib) (w : world) (self : agent) (transcript : string) (r : value) :
  truthy (pending_preview_id self) = false ->
  result_of (process_voice_input lib w self transcript) = Ok r ->
  get r "response" VNone = Ok (VStr (run w (prompt_for self transcript))) /\
  (get r "action" VNone = Ok (VStr "info") \/ get r "action" VNone = Ok (VStr "preview")).
Proof.
  intros Hp. unfold process_voice_input. rewrite Hp.
  destruct (has_preview_marker _).
  - destruct (_extract_preview_id _ _); simpl; [| discriminate].
    intros [= <-]. split; [reflexivity | right; apply reply_action].
  - simpl. intros [= <-]. split; [reflexivity | left; apply reply_action].
Qed.

(** C5, amended. With no preview pending, [_execute_pending_payment]
    answers "No pending payment to execute." with action "error", sends
    nothing and leaves the agent as it was, so a second call answers the
    same; [process_voice_input], called in that state, forwards the
    utterance to the agent run and sends no request itself, and its reply
    carries the model's text with action "info" or "preview": it is never
    the "no pending payment" one. *)
Theorem no_pending_payment_guard
    (lib : PyLib) (w1 w2 : world) (self : agent) (transcript : string) :
  truthy (pending_preview_id self) = false ->
  let s1 := _execute_pending_payment lib w1 self in
  let s2 := _execute_pending_payment lib w2 (agent_of s1) in
  let s := process_voice_input lib w1 self transcript in
  s1 = (Ok no_pending_reply, self, []) /\
  s2 = (Ok no_pending_reply, self, []) /\
  events_of s = [Ran (prompt_for self transcript)] /\
  result_of s <> Ok no_pending_reply /\
  forall r : value,
    result_of s = Ok r ->
    get r "response" VNone = Ok (VStr (run w1 (prompt_for self transcript))) /\
    (get r "action" VNone = Ok (VStr "info") \/ get r "action" VNone = Ok (VStr "preview")).
Proof.
  intros Hp.
  assert (E : forall w, _execute_pending_payment lib w self = (Ok no_pending_reply, self, []))
    by (intros w; unfold _execute_pending_payment; rewrite Hp; reflexivity).
  cbv zeta. rewrite (E w1). unfold agent_of at 1. simpl fst. simpl snd. rewrite (E w2).
  split; [reflexivity | split; [reflexivity | split; [| split]]].
  - now apply idle_forwards_to_run.
  - intros H. destruct (idle_reply lib w1 self transcript _ Hp H) as [_ [A | A]];
      discriminate A.
  - intros r H. exact (idle_reply lib w1 self transcript r Hp H).
Qed.

Lemma no_pending_payment_guard_witness :
  let w := constant_world (Response 200 None) "Hello! How can I help?" in
  let s1 := _execute_pending_payment (lib_of []) w (init "u-1") in
  let s2 := _execute_pending_payment (lib_of []) w (agent_of s1) in
  let s := process_voice_input (lib_of []) w (init "u-1") "yes" in
  s1 = (Ok no_pending_reply, init "u-1", []) /\
  s2 = (Ok no_pending_reply, init "u-1", []) /\
  events_of s = [Ran (prompt_for (init "u-1") "yes")] /\
  result_of s <> Ok no_pending_reply /\
  forall r : value,
    result_of s = Ok r ->
    get r "response" VNone = Ok (VStr "Hello! How can I help?") /\
    (get r "action" VNone = Ok (VStr "info") \/ get r "action" VNone = Ok (VStr "preview")).
Proof.
  intros w.
  exact (no_pending_payment_guard (lib_of []) w w (init "u-1") "yes" eq_refl).
Defined.

(** ** Tag normalisation *)


Lemma lower_char_idem (c : ascii) : lower_char (lower_char c) = lower_char c.
Proof. destruct c as [[] [] [] [] [] [] [] []]; reflexivity. Qed.

Lemma lower_idem (s : string) : lower (lower s) = lower s.
Proof. induction s as [|c s IH]; simpl; [| rewrite lower_char_idem, IH]; reflexivity. Qed.







(** ** Extraction of the preview identifier *)

Lemma match_here_prefix (p : list atom) (s m : string) :
  match_here p s = Some m -> (exists post, s = m ++ post) /\ match_here p m = Some m.
Proof.
  revert s m; induction p as [|a p IH]; intros s m; simpl.
  - intros [= <-]. split; [now exists s | reflexivity].
  - destruct s as [|c s]; [discriminate |].
    destruct (atom_matches a c) eqn:E; [| discriminate].
    destruct (match_here p s) as [m'|] eqn:E'; [| discriminate].
    intros [= <-]. destruct (IH _ _ E') as [[post ->] Hm].
    split; [now exists post |]. simpl. now rewrite E, Hm.
Qed.

Lemma match_here_extend (p : list atom) (m post : string) :
  match_here p m = Some m -> match_here p (m ++ post) = Some m.
Proof.
  revert m; induction p as [|a p IH]; intros m; simpl.
  - now intros [= <-].
  - destruct m as [|c m]; [discriminate |]. simpl.
    destruct (atom_matches a c); [| discriminate].
    destruct (match_here p m) as [m'|] eqn:E; [| discriminate].
    intros [= ->]. now rewrite (IH _ E).
Qed.

Lemma search_sound (p : list atom) (s m : string) :
  search p s = Some m -> substring m s /\ match_here p m = Some m.
Proof.
  induction s as [|c s IH]; simpl.
  - destruct (match_here p "") as [m'|] eqn:E; [| discriminate].
    intros [= ->]. destruct (match_here_prefix _ _ _ E) as [[post ->] Hm].
    split; [apply substring_prefix | exact Hm].
  - destruct (match_here p (String c s)) as [m'|] eqn:E.
    + intros [= ->]. destruct (match_here_prefix _ _ _ E) as [[post Hp] Hm].
      rewrite Hp. split; [apply substring_prefix | exact Hm].
    + intros H. destruct (IH H) as [Hs Hm]. split; [now apply substring_cons | exact Hm].
Qed.

Lemma search_complete (p : list atom) (s u : string) :
  match_here p u = Some u -> substring u s -> exists m, search p s = Some m.
Proof.
  intros Hu (pre & post & ->). induction pre as [|c pre IH].
  - simpl append. pose proof (match_here_extend p u post Hu) as E.
    destruct (u ++ post); simpl; simpl in E; rewrite E; eauto.
  - simpl. destruct (match_here p (String c (pre ++ u ++ post))); eauto.
Qed.

Lemma search_none (p : list atom) (s : string) :
  (forall u, match_here p u = Some u -> ~ substring u s) -> search p s = None.
Proof.
  intros H. destruct (search p s) as [m|] eqn:E; [| reflexivity].
  destruct (search_sound _ _ _ E) as [Hs Hm]. now destruct (H m Hm).
Qed.

Lemma through_brace_prefix (s m : string) :
  through_brace s = Some m -> exists post, s = m ++ post.
Proof.
  revert m; induction s as [|c s IH]; intros m; simpl; [discriminate |].
  destruct (Ascii.eqb c "}"%char).
  - intros [= <-]. now exists s.
  - destruct (through_brace s) as [m'|]; [| discriminate].
    intros [= <-]. destruct (IH _ eq_refl) as [post ->]. now exists post.
Qed.

Lemma json_fragment_sound (s f : string) :
  json_fragment s = Some f -> substring f s /\ startswith "{" f = true.
Proof.
  induction s as [|c s IH]; simpl; [discriminate |].
  destruct (Ascii.eqb c "{"%char) eqn:Ec.
  - apply Ascii.eqb_eq in Ec. subst c.
    destruct s as [|d s']; [discriminate |].
    destruct (Ascii.eqb d "}"%char); [exact (fun H => let (A, B) := IH H in conj (substring_cons _ _ _ A) B) |].
    destruct (through_brace (String d s')) as [m|] eqn:E.
    + intros [= <-]. destruct (through_brace_prefix _ _ E) as [post ->].
      split; [exists "", post; reflexivity | reflexivity].
    + intros H. destruct (IH H) as [A B]. split; [now apply substring_cons | exact B].
  - intros H. destruct (IH H) as [A B]. split; [now apply substring_cons | exact B].
Qed.







(** Scenario: a preview whose identifier is a UUID, then "yes". *)
Example preview_then_yes :
  let text := "You're about to send 200 GBP. Preview 123e4567-e89b-12d3-a456-426614174000 is awaiting_confirmation." in
  let s1 := process_voice_input (lib_of []) (constant_world TimeoutException text)
              (init "u-1") "Send 200 pounds to @alice" in
  agent_of s1 = set_pending (init "u-1") (VStr "123e4567-e89b-12d3-a456-426614174000") /\
  result_of s1 = Ok (preview_reply text (VStr "123e4567-e89b-12d3-a456-426614174000")) /\
  events_of (process_voice_input (lib_of []) (constant_world (Response 404 None) "") (agent_of s1) "yes") =
    [Sent {| req_method := POST;
             req_url := "http://localhost:8080/api/v1/payments/123e4567-e89b-12d3-a456-426614174000/execute";
             req_headers := [("X-User-Id", "u-1")];
             req_params := [];
             req_json := None;
             req_timeout := 60 |}].
Proof. repeat split. Qed.

(** C10. With no preview pending, a model response that carries the marker
    but holds no UUID-shaped substring and no substring that decodes to an
    object with a "preview_id" field is answered with action "preview" and
    [preview_id] [None] in the data; [pending_preview_id] stays [None], so
    a following "yes" is forwarded to the agent run as a new intent and no
    request is sent for it. *)
Theorem marker_without_id_stays_idle
    (lib : PyLib) (w w' : world) (self : agent) (transcript : string) :
  let response := run w (prompt_for self transcript) in
  decodes_objects lib ->
  pending_preview_id self = VNone ->
  has_preview_marker response = true ->
  (forall u, uuid_shaped u -> ~ substring u response) ->
  (forall fragment kvs,
     substring fragment response ->
     json_loads lib fragment = Some (VDict kvs) ->
     assoc "preview_id" kvs = None) ->
  let s := process_voice_input lib w self transcript in
  result_of s = Ok (preview_reply response VNone) /\
  pending_preview_id (agent_of s) = VNone /\
  events_of s = [Ran (prompt_for self transcript)] /\
  events_of (process_voice_input lib w' (agent_of s) "yes") = [Ran (prompt_for self "yes")].
Proof.
  intros response Hlib Hp Hm Hu Hj.
  assert (E : _extract_preview_id lib response = Ok VNone).
  { unfold _extract_preview_id. rewrite (search_none _ _ Hu).
    destruct (contains "{" response); [| reflexivity].
    destruct (json_fragment response) as [f|] eqn:Ef; [| reflexivity].
    destruct (json_fragment_sound _ _ Ef) as [Hs Hb].
    destruct (json_loads lib f) as [data|] eqn:El; [| reflexivity].
    destruct (Hlib _ _ Hb El) as [kvs ->]. simpl. unfold dict_get.
    now rewrite (Hj _ _ Hs El). }
  assert (S : process_voice_input lib w self transcript =
              (Ok (preview_reply response VNone), self, [Ran (prompt_for self transcript)])).
  { unfold process_voice_input. rewrite Hp. simpl truthy. cbv iota.
    fold response. rewrite Hm, E. reflexivity. }
  cbv zeta. rewrite S. unfold result_of, agent_of, events_of at 1. simpl fst. simpl snd.
  split; [reflexivity | split; [exact Hp | split; [reflexivity |]]].
  apply idle_forwards_to_run. now rewrite Hp.
Qed.

Lemma search_none_inv (p : list atom) (s : string) :
  search p s = None -> forall u, match_here p u = Some u -> ~ substring u s.
Proof.
  intros E u Hu Hs. destruct (search_complete _ _ _ Hu Hs) as [m Hm]. congruence.
Qed.

Lemma lib_of_one_decodes (key : string) (kvs : list (string * value)) :
  decodes_objects (lib_of [(key, VDict kvs)]).
Proof.
  intros s v _. simpl. destruct (String.eqb s key); [| discriminate].
  intros [= <-]. now exists kvs.
Qed.

Lemma marker_without_id_stays_idle_witness :
  let w := constant_world TimeoutException no_id_text in
  let s := process_voice_input lib_no_id w (init "u-1") "Send 5 GAS to @bob" in
  result_of s = Ok (preview_reply no_id_text VNone) /\
  pending_preview_id (agent_of s) = VNone /\
  events_of s = [Ran (prompt_for (init "u-1") "Send 5 GAS to @bob")] /\
  events_of (process_voice_input lib_no_id w (agent_of s) "yes") =
    [Ran (prompt_for (init "u-1") "yes")].
Proof.
  intros w.
  apply (marker_without_id_stays_idle lib_no_id w w (init "u-1") "Send 5 GAS to @bob").
  - apply lib_of_one_decodes.
  - reflexivity.
  - reflexivity.
  - apply search_none_inv. reflexivity.
  - intros fragment kvs _. simpl.
    destruct (String.eqb fragment _); [| discriminate].
    intros [= <-]. reflexivity.
Defined.

(** ** Status codes *)

(** C8, as stated, fails: 429 and 403 are on the list of known codes, yet
    [execute_payment] answers 429, and [resolve_tag] answers 403, with the
    generic error that carries the code. *)
Lemma listed_code_gets_generic_error :
  In 429%Z claimed_known_codes /\
  In 403%Z claimed_known_codes /\
  fst (execute (lib_of []) (constant_world (Response 429 None) "")
         (execute_payment "u-1" (VStr "pv-1"))) =
    Ok (error_json "Payment failed: 429") /\
  fst (execute (lib_of []) (constant_world (Response 403 None) "") (resolve_tag "@alice")) =
    Ok (error_json "Failed to resolve tag: 403").
Proof. simpl. repeat split; tauto. Qed.

(** C8, amended. Each adapter maps the codes of its own table to a fixed
    message ([execute_payment]: 404, 403, 409; [generate_video]: 403, 429;
    [resolve_tag] and [check_balance]: 404; [create_payment_preview]: 403;
    [convert_fiat_to_gas]: none), answers 400 ([create_payment_preview])
    and 402 ([generate_video]) with a message of their own, and answers
    every other status than 200 with the generic error that carries the
    status code. *)
Theorem status_codes_map_per_adapter
    (lib : PyLib) (w : world) (c : call) (req : request) (status_code : Z) (body : option value) :
  snd (execute lib w c) = [Sent req] ->
  send w req = Response status_code body ->
  status_code <> 200%Z ->
  fst (execute lib w c) =
    match lookup_code status_code (error_table c), special_status lib w c status_code body with
    | Some msg, _ => Ok (error_json msg)
    | None, Some r => r
    | None, None => Ok (generic_error c status_code)
    end.
Proof.
  intros Hsent Hsend Hcode.
  apply Z.eqb_neq in Hcode.
  destruct c; unfold execute in *.
  - unfold TagResolverTool.execute in *.
    destruct (String.eqb (TagResolverTool.clean_tag tag) ""); [discriminate |].
    simpl in *. injection Hsent as <-. rewrite Hsend, Hcode. by_status_code.
  - unfold FXConversionTool.execute in *.
    destruct (negb (existsb _ _)); [discriminate |].
    destruct (PrimFloat.leb amount PrimFloat.zero); [discriminate |].
    simpl in *. injection Hsent as <-. rewrite Hsend, Hcode. reflexivity.
  - unfold BalanceCheckTool.execute in *.
    simpl in *. injection Hsent as <-. rewrite Hsend, Hcode. by_status_code.
  - unfold PaymentPreviewTool.execute in *.
    simpl in *. injection Hsent as <-. rewrite Hsend, Hcode. by_status_code.
  - unfold PaymentExecuteTool.execute in *.
    simpl in *. injection Hsent as <-. rewrite Hsend, Hcode. by_status_code.
  - unfold VideoGenerationTool.execute in *.
    simpl in *. injection Hsent as <-. rewrite Hsend, Hcode. by_status_code.
Qed.

Lemma status_codes_map_per_adapter_witness :
  fst (execute (lib_of []) (constant_world (Response 409 None) "")
         (execute_payment "u-1" (VStr "pv-1"))) =
    Ok (error_json "Payment already executed") /\
  fst (execute (lib_of []) (constant_world (Response 500 None) "")
         (generate_video "u-1" "a sunset" 10 "cinematic")) =
    Ok (error_json "Video generation failed: 500").
Proof.
  split.
  - refine (status_codes_map_per_adapter (lib_of []) (constant_world (Response 409 None) "")
              (execute_payment "u-1" (VStr "pv-1")) _ 409%Z None eq_refl eq_refl _).
    discriminate.
  - refine (status_codes_map_per_adapter (lib_of []) (constant_world (Response 500 None) "")
              (generate_video "u-1" "a sunset" 10 "cinematic") _ 500%Z None eq_refl eq_refl _).
    discriminate.
Defined.

(** ** Returning and raising *)


(** A 200 answer of the execute endpoint without a transaction hash:
    [data.get('tx_hash')] is [None], and slicing it raises. *)
Example execute_payment_without_tx_hash :
  fst (execute (lib_of []) (constant_world (Response 200 (Some (VDict []))) "")
         (execute_payment "u-1" (VStr "pv-1"))) =
  Raise TypeError.
Proof. reflexivity. Qed.

(** Every adapter sends one request, or none when it rejects its input. *)
Lemma at_most_one_request (lib : PyLib) (w : world) (c : call) :
  snd (execute lib w c) = [] \/ exists req, snd (execute lib w c) = [Sent req].
Proof.
  destruct c; unfold execute.
  - unfold TagResolverTool.execute. destruct (String.eqb _ ""); simpl; eauto.
  - unfold FXConversionTool.execute.
    destruct (negb _); [now left |]. destruct (PrimFloat.leb _ _); simpl; eauto.
  - right. eexists. reflexivity.
  - right. eexists. reflexivity.
  - right. eexists. reflexivity.
  - right. eexists. reflexivity.
Qed.



(** The hand-spelled time-out results are told apart from the network
    error, whatever its text. *)
Lemma timed_out_is_not_network_error (lib : PyLib) (c : call) (e : string) :
  match c with
  | execute_payment _ _ | generate_video _ _ _ _ => True
  | _ => timed_out_result lib c <> network_error e
  end.
Proof. destruct c; try exact I; simpl; discriminate. Qed.

(** * Further properties *)

(** ** White space and letter case *)

Lemma lstrip_suffix (s : string) : exists pre, s = pre ++ lstrip s.
Proof.
  induction s as [|c s [pre IH]]; simpl.
  - now exists "".
  - destruct (isspace c).
    + exists (String c pre). simpl. now rewrite <- IH.
    + now exists "".
Qed.

Lemma append_empty_r (s : string) : s ++ "" = s.
Proof. induction s as [|c s IH]; simpl; congruence. Qed.

Lemma append_assoc (a b c : string) : (a ++ b) ++ c = a ++ b ++ c.
Proof. induction a as [|x a IH]; simpl; congruence. Qed.

Lemma rstrip_prefix (s : string) : exists post, s = rstrip s ++ post.
Proof.
  induction s as [|c s [post IH]]; simpl.
  - now exists "".
  - destruct (rstrip s) as [|d r] eqn:E.
    + destruct (isspace c).
      * now exists (String c s).
      * exists s. reflexivity.
    + exists post. simpl. simpl in IH. now rewrite <- IH.
Qed.

Lemma substring_trans (a b c : string) : substring a b -> substring b c -> substring a c.
Proof.
  intros (p1 & q1 & ->) (p2 & q2 & ->).
  exists (p2 ++ p1), (q1 ++ q2). now rewrite !append_assoc.
Qed.

Lemma strip_substring (s : string) : substring (strip s) s.
Proof.
  unfold strip. destruct (lstrip_suffix s) as [pre H].
  destruct (rstrip_prefix (lstrip s)) as [post H'].
  exists pre, post. now rewrite <- H'.
Qed.

Lemma lstrip_solid (p x : string) : starts_solid p = true -> lstrip (p ++ x) = p ++ x.
Proof.
  destruct p as [|c p]; [discriminate |]. simpl.
  now destruct (isspace c).
Qed.

Lemma lstrip_keeps (pre p x : string) :
  starts_solid p = true -> exists pre', lstrip (pre ++ p ++ x) = pre' ++ p ++ x.
Proof.
  intros Hp. induction pre as [|c pre IH].
  - exists "". exact (lstrip_solid p x Hp).
  - simpl. destruct (isspace c); [exact IH | now exists (String c pre)].
Qed.

Lemma rstrip_cons (c : ascii) (s : string) :
  rstrip (String c s) =
  match rstrip s with
  | EmptyString => if isspace c then EmptyString else String c EmptyString
  | r => String c r
  end.
Proof. reflexivity. Qed.

Lemma rstrip_solid (p x : string) : ends_solid p = true -> rstrip (p ++ x) = p ++ rstrip x.
Proof.
  induction p as [|c p IH]; [discriminate |].
  destruct p as [|d p].
  - simpl. intros H. destruct (rstrip x); [| reflexivity].
    now destruct (isspace c).
  - intros H. change (ends_solid (String d p) = true) in H.
    specialize (IH H).
    change (String c (String d p) ++ x) with (String c (String d p ++ x)).
    rewrite rstrip_cons, IH. reflexivity.
Qed.

Lemma rstrip_app (x y : string) : rstrip y <> "" -> rstrip (x ++ y) = x ++ rstrip y.
Proof.
  intros Hy. induction x as [|c x IH]; [reflexivity |].
  simpl. rewrite IH. destruct (x ++ rstrip y) eqn:E; [| reflexivity].
  destruct x; simpl in E; [contradiction | discriminate].
Qed.

(** A solid phrase found in a text is still found after [strip]. *)
Lemma strip_keeps_phrase (p s : string) :
  solid p = true -> substring p s -> substring p (strip s).
Proof.
  unfold solid. rewrite andb_true_iff. intros [Hs He] (pre & post & ->).
  destruct (lstrip_keeps pre p post Hs) as [pre' E].
  unfold strip. rewrite E.
  assert (R : rstrip (p ++ post) = p ++ rstrip post) by now apply rstrip_solid.
  rewrite rstrip_app.
  - rewrite R. now exists pre', (rstrip post).
  - rewrite R. destruct p; [discriminate | discriminate].
Qed.

Lemma contains_strip (p s : string) :
  solid p = true -> contains p (strip s) = contains p s.
Proof.
  intros Hp. destruct (contains p s) eqn:E.
  - apply contains_spec. apply strip_keeps_phrase; [exact Hp | now apply contains_spec].
  - apply contains_false. intros H. apply contains_false in E. apply E.
    exact (substring_trans _ _ _ H (strip_substring s)).
Qed.

Lemma any_phrase_in_strip (phrases : list string) (s : string) :
  forallb solid phrases = true ->
  any_phrase_in phrases (strip s) = any_phrase_in phrases s.
Proof.
  induction phrases as [|p ps IH]; [reflexivity |].
  simpl. rewrite andb_true_iff. intros [Hp Hps].
  now rewrite (contains_strip _ _ Hp), (IH Hps).
Qed.

Lemma check_confirmation_classify (transcript : string) :
  _check_confirmation transcript = classify (lower transcript).
Proof.
  unfold _check_confirmation, classify.
  now rewrite !any_phrase_in_strip by reflexivity.
Qed.

Lemma isspace_lower_char (c : ascii) : isspace (lower_char c) = isspace c.
Proof. destruct c as [[] [] [] [] [] [] [] []]; reflexivity. Qed.

Lemma lstrip_lower (s : string) : lstrip (lower s) = lower (lstrip s).
Proof.
  induction s as [|c s IH]; [reflexivity |].
  simpl. rewrite isspace_lower_char. now destruct (isspace c).
Qed.

Lemma rstrip_lower (s : string) : rstrip (lower s) = lower (rstrip s).
Proof.
  induction s as [|c s IH]; [reflexivity |].
  change (lower (String c s)) with (String (lower_char c) (lower s)).
  rewrite !rstrip_cons, IH, isspace_lower_char.
  destruct (rstrip s); simpl; [now destruct (isspace c) | reflexivity].
Qed.

Lemma strip_lower (s : string) : strip (lower s) = lower (strip s).
Proof. unfold strip. now rewrite lstrip_lower, rstrip_lower. Qed.

Lemma lower_app (a b : string) : lower (a ++ b) = lower a ++ lower b.
Proof. induction a as [|c a IH]; simpl; congruence. Qed.

(** ** The classifier, on the utterance as spoken *)

(** X1. The classification is decided by the lower-cased utterance alone:
    it is "confirmed" exactly when a confirm phrase occurs in it,
    "cancelled" exactly when no confirm phrase and some cancel phrase
    occurs, "unclear" exactly when neither occurs; trimming plays no role,
    and no other result exists. *)
Theorem classification_by_phrases (transcript : string) :
  (_check_confirmation transcript = "confirmed" <->
   exists p, In p confirm_phrases /\ substring p (lower transcript)) /\
  (_check_confirmation transcript = "cancelled" <->
   (forall p, In p confirm_phrases -> ~ substring p (lower transcript)) /\
   exists q, In q cancel_phrases /\ substring q (lower transcript)) /\
  (_check_confirmation transcript = "unclear" <->
   (forall p, In p confirm_phrases -> ~ substring p (lower transcript)) /\
   (forall q, In q cancel_phrases -> ~ substring q (lower transcript))) /\
  _check_confirmation (strip transcript) = _check_confirmation transcript /\
  (_check_confirmation transcript = "confirmed" \/
   _check_confirmation transcript = "cancelled" \/
   _check_confirmation transcript = "unclear").
Proof.
  rewrite (check_confirmation_classify (strip transcript)), <- strip_lower.
  rewrite check_confirmation_classify. unfold classify.
  rewrite !any_phrase_in_strip by reflexivity.
  rewrite <- !any_phrase_in_spec, <- !any_phrase_in_none.
  destruct (any_phrase_in confirm_phrases (lower transcript));
    destruct (any_phrase_in cancel_phrases (lower transcript));
    repeat split; intros; try discriminate; try tauto;
    repeat match goal with H : _ /\ _ |- _ => destruct H end; try discriminate;
    auto.
Qed.

(** X2. An utterance that contains a confirmed utterance is confirmed, and
    one that contains an utterance that is not "unclear" is not "unclear"
    either: the substring scan cannot be undone by the words around it. *)
Theorem confirmation_survives_embedding (before transcript after : string) :
  (_check_confirmation transcript = "confirmed" ->
   _check_confirmation (before ++ transcript ++ after) = "confirmed") /\
  (_check_confirmation transcript <> "unclear" ->
   _check_confirmation (before ++ transcript ++ after) <> "unclear").
Proof.
  assert (M : forall phrases,
             any_phrase_in phrases (lower transcript) = true ->
             any_phrase_in phrases (lower (before ++ transcript ++ after)) = true).
  { intros phrases H. apply any_phrase_in_spec in H as (p & Hp & Hs).
    apply any_phrase_in_spec. exists p. split; [exact Hp |].
    rewrite !lower_app. apply (substring_trans _ _ _ Hs).
    now exists (lower before), (lower after). }
  rewrite !check_confirmation_classify. unfold classify.
  pose proof (M confirm_phrases) as Mc. pose proof (M cancel_phrases) as Mn.
  destruct (any_phrase_in confirm_phrases (lower transcript)).
  - rewrite (Mc eq_refl). split; [reflexivity | discriminate].
  - destruct (any_phrase_in cancel_phrases (lower transcript)).
    + rewrite (Mn eq_refl). split; [discriminate |].
      intros _. now destruct (any_phrase_in confirm_phrases _).
    + split; [discriminate | intros H; now destruct H].
Qed.

Lemma confirmation_survives_embedding_witness :
  _check_confirmation "ok" = "confirmed" /\
  _check_confirmation ("Please do not bo" ++ "ok" ++ " that flight") = "confirmed" /\
  _check_confirmation "no" <> "unclear" /\
  _check_confirmation ("I k" ++ "no" ++ "w that") <> "unclear".
Proof.
  destruct (confirmation_survives_embedding "Please do not bo" "ok" " that flight") as [A _].
  destruct (confirmation_survives_embedding "I k" "no" "w that") as [_ B].
  assert (N : _check_confirmation "no" <> "unclear")
    by (intros H; vm_compute in H; discriminate H).
  exact (conj eq_refl (conj (A eq_refl) (conj N (B N)))).
Defined.

(** ** The session, step by step *)

(** Every case of [process_voice_input], by the state and the classifier. *)
Lemma pending_step_cases (lib : PyLib) (w : world) (self : agent) (transcript : string) :
  truthy (pending_preview_id self) = true ->
  (_check_confirmation transcript = "confirmed" /\
   process_voice_input lib w self transcript = _execute_pending_payment lib w self) \/
  (_check_confirmation transcript = "cancelled" /\
   process_voice_input lib w self transcript = (Ok cancelled_reply, set_pending self VNone, [])) \/
  (_check_confirmation transcript = "unclear" /\
   process_voice_input lib w self transcript = (Ok unclear_reply, self, [])).
Proof.
  intros Hp. unfold process_voice_input. rewrite Hp.
  destruct (classification_by_phrases transcript) as (_ & _ & _ & _ & [E | [E | E]]);
    rewrite E; simpl; auto.
Qed.

Lemma execute_pending_events (lib : PyLib) (w : world) (self : agent) :
  truthy (pending_preview_id self) = true ->
  events_of (_execute_pending_payment lib w self) =
  [Sent (PaymentExecuteTool.request_for lib w (user_id self) (pending_preview_id self))].
Proof.
  intros Hp. unfold _execute_pending_payment. rewrite Hp. simpl negb. cbv iota.
  pose proof (execute_payment_sends_once lib w (user_id self) (pending_preview_id self)) as Hs.
  destruct (PaymentExecuteTool.execute lib w (user_id self) (pending_preview_id self)) as [[r|e] sent];
    simpl in Hs; subst sent; reflexivity.
Qed.

(** A step that sends a request is the execution of a confirmed, pending
    preview. *)
Lemma request_needs_confirmation_step
    (lib : PyLib) (w : world) (self : agent) (transcript : string) (r : request) :
  In (Sent r) (events_of (process_voice_input lib w self transcript)) ->
  truthy (pending_preview_id self) = true /\
  _check_confirmation transcript = "confirmed" /\
  r = PaymentExecuteTool.request_for lib w (user_id self) (pending_preview_id self).
Proof.
  destruct (truthy (pending_preview_id self)) eqn:Hp.
  - destruct (pending_step_cases lib w self transcript Hp) as [[E S] | [[E S] | [E S]]];
      rewrite S.
    + rewrite (execute_pending_events lib w self Hp). simpl.
      intros [[= <-] | []]. auto.
    + intros [].
    + intros [].
  - rewrite (idle_forwards_to_run lib w self transcript Hp). simpl.
    intros [H | []]. discriminate H.
Qed.

(** X3. The session sends a request only to execute a confirmed preview:
    if a step sends anything, a preview was pending, the utterance was
    classified "confirmed", and the one request sent is the execute request
    for the user and the preview identifier the session held. *)
Theorem request_needs_confirmation
    (lib : PyLib) (w : world) (self : agent) (transcript : string) (r : request) :
  In (Sent r) (events_of (process_voice_input lib w self transcript)) ->
  truthy (pending_preview_id self) = true /\
  _check_confirmation transcript = "confirmed" /\
  r = PaymentExecuteTool.request_for lib w (user_id self) (pending_preview_id self) /\
  events_of (process_voice_input lib w self transcript) = [Sent r].
Proof.
  intros H.
  destruct (request_needs_confirmation_step lib w self transcript r H) as (Hp & Hc & ->).
  repeat split; try assumption.
  destruct (pending_step_cases lib w self transcript Hp) as [[E S] | [[E S] | [E S]]];
    try congruence.
  rewrite S. now apply execute_pending_events.
Qed.

Lemma request_needs_confirmation_witness :
  let w := constant_world (Response 404 None) "" in
  let r := PaymentExecuteTool.request_for (lib_of []) w (user_id (awaiting "pv-1")) (VStr "pv-1") in
  truthy (pending_preview_id (awaiting "pv-1")) = true /\
  _check_confirmation "go ahead" = "confirmed" /\
  r = PaymentExecuteTool.request_for (lib_of []) w (user_id (awaiting "pv-1"))
        (pending_preview_id (awaiting "pv-1")) /\
  events_of (process_voice_input (lib_of []) w (awaiting "pv-1") "go ahead") = [Sent r].
Proof.
  intros w r.
  exact (request_needs_confirmation (lib_of []) w (awaiting "pv-1") "go ahead" r
           (or_introl eq_refl)).
Defined.

(** X4. While a preview is pending the model is never consulted, whatever
    the utterance; with none pending it is consulted exactly once and
    nothing is sent; no step performs more than one effect. *)
Theorem pending_gates_the_model
    (lib : PyLib) (w : world) (self : agent) (transcript : string) :
  let s := process_voice_input lib w self transcript in
  (truthy (pending_preview_id self) = true -> forall prompt, ~ In (Ran prompt) (events_of s)) /\
  (truthy (pending_preview_id self) = false -> events_of s = [Ran (prompt_for self transcript)]) /\
  (List.length (events_of s) <= 1)%nat.
Proof.
  cbv zeta. destruct (truthy (pending_preview_id self)) eqn:Hp.
  - assert (E : events_of (process_voice_input lib w self transcript) = [] \/
                exists r, events_of (process_voice_input lib w self transcript) = [Sent r]).
    { destruct (pending_step_cases lib w self transcript Hp) as [[_ S] | [[_ S] | [_ S]]];
        rewrite S; [right | left | left]; try reflexivity.
      eexists. now apply execute_pending_events. }
    split; [| split; [discriminate |]].
    + intros _ prompt. destruct E as [-> | [r ->]]; simpl; [tauto |].
      intros [H | []]. discriminate H.
    + destruct E as [-> | [r ->]]; simpl; lia.
  - rewrite (idle_forwards_to_run lib w self transcript Hp).
    split; [discriminate | split; [reflexivity | simpl; lia]].
Qed.

Lemma pending_gates_the_model_witness :
  let s := process_voice_input (lib_of []) (constant_world TimeoutException "Your balance is 3 GAS.")
             (awaiting "pv-1") "What's my balance?" in
  (forall prompt, ~ In (Ran prompt) (events_of s)) /\
  (List.length (events_of s) <= 1)%nat.
Proof.
  intros s.
  destruct (pending_gates_the_model (lib_of [])
              (constant_world TimeoutException "Your balance is 3 GAS.")
              (awaiting "pv-1") "What's my balance?") as (A & _ & C).
  exact (conj (A eq_refl) C).
Defined.

(** X5. A pending preview is never replaced by another one: after a step
    taken while a preview is pending, the session holds the same identifier
    or none, and the user it acts for is the same. *)
Theorem pending_is_never_overwritten
    (lib : PyLib) (w : world) (self : agent) (transcript : string) :
  truthy (pending_preview_id self) = true ->
  let self' := agent_of (process_voice_input lib w self transcript) in
  (pending_preview_id self' = pending_preview_id self \/ pending_preview_id self' = VNone) /\
  user_id self' = user_id self.
Proof.
  intros Hp. cbv zeta.
  destruct (pending_step_cases lib w self transcript Hp) as [[_ S] | [[_ S] | [_ S]]];
    rewrite S; try (simpl; auto; fail).
  destruct (pending_after_execute lib w self Hp) as [A _]. cbv zeta in A. rewrite A.
  destruct (returns _); simpl; auto.
Qed.

Lemma pending_is_never_overwritten_witness :
  let text := "Please confirm preview 123e4567-e89b-12d3-a456-426614174000" in
  let self' := agent_of (process_voice_input (lib_of []) (constant_world TimeoutException text)
                           (awaiting "pv-1") "send 5 pounds to @bob instead") in
  (pending_preview_id self' = pending_preview_id (awaiting "pv-1") \/
   pending_preview_id self' = VNone) /\
  user_id self' = user_id (awaiting "pv-1").
Proof.
  intros text.
  exact (pending_is_never_overwritten (lib_of []) (constant_world TimeoutException text)
           (awaiting "pv-1") "send 5 pounds to @bob instead" eq_refl).
Defined.

(** ** The session, over a conversation *)

Lemma step_keeps_state_shape (lib : PyLib) (w : world) (self : agent) (transcript : string) :
  idle_or_awaiting self ->
  idle_or_awaiting (agent_of (process_voice_input lib w self transcript)) /\
  user_id (agent_of (process_voice_input lib w self transcript)) = user_id self.
Proof.
  intros [H0 | Hp].
  - unfold process_voice_input. rewrite H0. simpl truthy. cbv iota.
    destruct (has_preview_marker _); [| split; [now left | reflexivity]].
    destruct (_extract_preview_id _ _) as [id|e]; [| split; [now left | reflexivity]].
    destruct (truthy id) eqn:Ht; simpl; split; auto; [now right | now left].
  - destruct (pending_is_never_overwritten lib w self transcript Hp) as [[E | E] U];
      cbv zeta in *; split; auto; unfold idle_or_awaiting; rewrite E; auto.
Qed.

Lemma converse_cons (lib : PyLib) (self : agent) (w : world) (transcript : string)
    (rest : list (world * string)) :
  converse lib self ((w, transcript) :: rest) =
  (fst (converse lib (agent_of (process_voice_input lib w self transcript)) rest),
   (events_of (process_voice_input lib w self transcript)
    ++ snd (converse lib (agent_of (process_voice_input lib w self transcript)) rest))%list).
Proof.
  simpl. now destruct (converse lib (agent_of (process_voice_input lib w self transcript)) rest).
Qed.

(** X6. Over any conversation that starts from an agent holding no preview
    or a truthy one, the agent keeps acting for the same user and ends
    holding no preview or a truthy one; and every request in the log of the
    conversation is the execute request of one of its turns, sent for that
    same user and a truthy preview identifier on an utterance classified
    "confirmed". *)
Theorem conversation_invariant
    (lib : PyLib) (turns : list (world * string)) (self : agent) :
  idle_or_awaiting self ->
  idle_or_awaiting (fst (converse lib self turns)) /\
  user_id (fst (converse lib self turns)) = user_id self /\
  forall r : request,
    In (Sent r) (snd (converse lib self turns)) ->
    exists (w : world) (transcript : string) (id : value),
      In (w, transcript) turns /\
      _check_confirmation transcript = "confirmed" /\
      truthy id = true /\
      r = PaymentExecuteTool.request_for lib w (user_id self) id.
Proof.
  revert self. induction turns as [|[w transcript] rest IH]; intros self Hs.
  - simpl. split; [exact Hs | split; [reflexivity | intros r []]].
  - rewrite converse_cons. simpl fst. simpl snd.
    destruct (step_keeps_state_shape lib w self transcript Hs) as [Hs' Hu].
    destruct (IH _ Hs') as (A & B & C).
    split; [exact A | split; [congruence |]].
    intros r Hr. apply in_app_or in Hr as [Hr | Hr].
    + destruct (request_needs_confirmation_step lib w self transcript r Hr) as (Hp & Hc & ->).
      exists w, transcript, (pending_preview_id self). simpl. auto.
    + destruct (C r Hr) as (w' & t' & id & Hin & Hc & Ht & ->).
      exists w', t', id. rewrite Hu. simpl. auto.
Qed.

Lemma conversation_invariant_witness :
  let self := init "550e8400-e29b-41d4-a716-446655440000" in
  idle_or_awaiting (fst (converse lib_409 self main_turns)) /\
  user_id (fst (converse lib_409 self main_turns)) = user_id self /\
  forall r : request,
    In (Sent r) (snd (converse lib_409 self main_turns)) ->
    exists (w : world) (transcript : string) (id : value),
      In (w, transcript) main_turns /\
      _check_confirmation transcript = "confirmed" /\
      truthy id = true /\
      r = PaymentExecuteTool.request_for lib_409 w (user_id self) id.
Proof.
  intros self.
  exact (conversation_invariant lib_409 main_turns self (or_introl eq_refl)).
Defined.

(** The conversation of [main], run: one model call per new intent, then
    the single execute request, and the session is idle again. *)
Example main_conversation :
  converse lib_409 (init "550e8400-e29b-41d4-a716-446655440000") main_turns =
  (init "550e8400-e29b-41d4-a716-446655440000",
   [Ran (prompt_for (init "550e8400-e29b-41d4-a716-446655440000") "What's my balance?");
    Ran (prompt_for (init "550e8400-e29b-41d4-a716-446655440000") "Send 200 pounds to @alice");
    Sent {| req_method := POST;
            req_url := "http://localhost:8080/api/v1/payments/123e4567-e89b-12d3-a456-426614174000/execute";
            req_headers := [("X-User-Id", "550e8400-e29b-41d4-a716-446655440000")];
            req_params := [];
            req_json := None;
            req_timeout := 60 |}]).
Proof. reflexivity. Qed.

(** ** Extraction, in detail *)

Lemma search_leftmost (p : list atom) (s m : string) :
  search p s = Some m ->
  exists pre post,
    s = pre ++ m ++ post /\
    match_here p m = Some m /\
    forall pre' u post',
      s = pre' ++ u ++ post' -> match_here p u = Some u ->
      (String.length pre <= String.length pre')%nat.
Proof.
  revert m. induction s as [|c s IH]; intros m; simpl.
  - destruct (match_here p "") as [m'|] eqn:E; [| discriminate].
    intros [= ->]. destruct (match_here_prefix _ _ _ E) as [[post Hp] Hm].
    exists "", post. repeat split; auto. intros. simpl. lia.
  - destruct (match_here p (String c s)) as [m'|] eqn:E.
    + intros [= ->]. destruct (match_here_prefix _ _ _ E) as [[post Hp] Hm].
      exists "", post. repeat split; auto. intros. simpl. lia.
    + intros H. destruct (IH _ H) as (pre & post & -> & Hm & Hl).
      exists (String c pre), post. repeat split; auto.
      intros pre' u post' Hs Hu. destruct pre' as [|c' pre'].
      * simpl in Hs. rewrite Hs, (match_here_extend p u post' Hu) in E. discriminate.
      * simpl in Hs. injection Hs as -> Hs. simpl.
        specialize (Hl pre' u post' Hs Hu). lia.
Qed.

Lemma match_here_length (p : list atom) (s m : string) :
  match_here p s = Some m -> String.length m = List.length p.
Proof.
  revert s m. induction p as [|a p IH]; intros s m; simpl.
  - now intros [= <-].
  - destruct s as [|c s]; [discriminate |].
    destruct (atom_matches a c); [| discriminate].
    destruct (match_here p s) as [m'|] eqn:E; [| discriminate].
    intros [= <-]. simpl. now rewrite (IH _ _ E).
Qed.

(** X7. When the response holds a UUID-shaped substring anywhere, the
    identifier extracted is the leftmost such substring, 36 characters
    long, whatever else the response holds: the JSON fragment is never
    looked at, and a UUID that precedes the preview's own (the user's, say)
    is the one taken. *)
Theorem leftmost_uuid_is_extracted (lib : PyLib) (response u : string) :
  uuid_shaped u ->
  substring u response ->
  exists pre m post,
    response = pre ++ m ++ post /\
    uuid_shaped m /\
    String.length m = 36%nat /\
    _extract_preview_id lib response = Ok (VStr m) /\
    forall pre' u' post',
      response = pre' ++ u' ++ post' -> uuid_shaped u' ->
      (String.length pre <= String.length pre')%nat.
Proof.
  intros Hu Hs. destruct (search_complete _ _ _ Hu Hs) as [m E].
  destruct (search_leftmost _ _ _ E) as (pre & post & Hr & Hm & Hl).
  exists pre, m, post. repeat split; auto.
  - exact (match_here_length _ _ _ Hm).
  - unfold _extract_preview_id. now rewrite E.
Qed.

Lemma leftmost_uuid_is_extracted_witness :
  let response :=
    "User 550e8400-e29b-41d4-a716-446655440000: please confirm preview 123e4567-e89b-12d3-a456-426614174000" in
  exists pre m post,
    response = pre ++ m ++ post /\
    uuid_shaped m /\
    String.length m = 36%nat /\
    _extract_preview_id (lib_of []) response = Ok (VStr m) /\
    forall pre' u' post',
      response = pre' ++ u' ++ post' -> uuid_shaped u' ->
      (String.length pre <= String.length pre')%nat.
Proof.
  intros response.
  apply (leftmost_uuid_is_extracted (lib_of []) response "123e4567-e89b-12d3-a456-426614174000").
  - reflexivity.
  - exists "User 550e8400-e29b-41d4-a716-446655440000: please confirm preview ", "".
    reflexivity.
Defined.

(** The user's identifier, echoed before the preview's, is what the session
    stores. *)
Example echoed_user_id_is_stored :
  _extract_preview_id (lib_of [])
    "User 550e8400-e29b-41d4-a716-446655440000: please confirm preview 123e4567-e89b-12d3-a456-426614174000" =
  Ok (VStr "550e8400-e29b-41d4-a716-446655440000").
Proof. reflexivity. Qed.

Lemma contains_char_cons (a c : ascii) (s : string) :
  contains (String a "") (String c s) = Ascii.eqb a c || contains (String a "") s.
Proof.
  change (contains (String a "") (String c s))
    with (Ascii.eqb a c && true || contains (String a "") s).
  now rewrite andb_true_r.
Qed.

Lemma through_brace_shape (s m : string) :
  through_brace s = Some m ->
  exists body, m = body ++ "}" /\ contains "}" body = false.
Proof.
  revert m; induction s as [|c s IH]; intros m; simpl; [discriminate |].
  destruct (Ascii.eqb c "}"%char) eqn:Ec.
  - intros [= <-]. apply Ascii.eqb_eq in Ec. subst c. now exists "".
  - destruct (through_brace s) as [m'|]; [| discriminate].
    intros [= <-]. destruct (IH _ eq_refl) as (body & -> & Hb).
    exists (String c body). split; [reflexivity |].
    now rewrite contains_char_cons, Ascii.eqb_sym, Ec.
Qed.

(** X8. The fragment handed to the JSON decoder is a substring of the
    response made of an opening brace, a non-empty body without any closing
    brace, and one closing brace: an object that nests another one is cut
    at the inner closing brace. *)
Theorem json_fragment_shape (response fragment : string) :
  json_fragment response = Some fragment ->
  substring fragment response /\
  exists body,
    fragment = "{" ++ body ++ "}" /\
    body <> "" /\
    contains "}" body = false.
Proof.
  intros H. split; [exact (proj1 (json_fragment_sound _ _ H)) |].
  revert H. induction response as [|c s IH]; simpl; [discriminate |].
  destruct (Ascii.eqb c "{"%char) eqn:Ec; [| exact IH].
  apply Ascii.eqb_eq in Ec. subst c.
  destruct s as [|d s']; [discriminate |].
  destruct (Ascii.eqb d "}"%char) eqn:Ed; [exact IH |].
  destruct (through_brace (String d s')) as [m|] eqn:E; [| exact IH].
  intros [= <-]. destruct (through_brace_shape _ _ E) as (body & -> & Hb).
  exists body. repeat split; auto.
  intros ->. simpl in E. rewrite Ed in E.
  destruct (through_brace s'); [| discriminate].
  injection E as -> _. discriminate Ed.
Qed.

Lemma json_fragment_shape_witness :
  let response := "Please confirm {" ++ quoted "preview_id" ++ ": " ++ quoted "pv-7" ++ ", "
                  ++ quoted "fee" ++ ": {" ++ quoted "gas" ++ ": 1}}" in
  let fragment := "{" ++ quoted "preview_id" ++ ": " ++ quoted "pv-7" ++ ", "
                  ++ quoted "fee" ++ ": {" ++ quoted "gas" ++ ": 1}" in
  json_fragment response = Some fragment /\
  substring fragment response /\
  exists body,
    fragment = "{" ++ body ++ "}" /\
    body <> "" /\
    contains "}" body = false.
Proof.
  intros response fragment.
  exact (conj eq_refl (json_fragment_shape response fragment eq_refl)).
Defined.

Lemma marker_is_confirm (response : string) :
  has_preview_marker response = contains "confirm" (lower response).
Proof.
  unfold has_preview_marker.
  destruct (contains "awaiting_confirmation" (lower response)) eqn:E; [| reflexivity].
  symmetry. apply contains_spec. apply contains_spec in E.
  apply (substring_trans _ "awaiting_confirmation"); [| exact E].
  now exists "awaiting_", "ation".
Qed.

(** X9. With no preview pending, the reply has action "preview" exactly
    when the model's text contains "confirm" in some letter case (the
    longer marker "awaiting_confirmation" adds nothing), and action "info"
    otherwise; whether a preview was really created plays no role. *)
Theorem preview_action_iff_confirm_word
    (lib : PyLib) (w : world) (self : agent) (transcript : string) (r : value) :
  truthy (pending_preview_id self) = false ->
  result_of (process_voice_input lib w self transcript) = Ok r ->
  let response := run w (prompt_for self transcript) in
  (get r "action" VNone = Ok (VStr "preview") <-> substring "confirm" (lower response)) /\
  (get r "action" VNone = Ok (VStr "info") <-> ~ substring "confirm" (lower response)).
Proof.
  intros Hp. cbv zeta. rewrite <- !contains_spec, <- marker_is_confirm.
  unfold process_voice_input. rewrite Hp.
  destruct (has_preview_marker _).
  - destruct (_extract_preview_id _ _); simpl; [| discriminate].
    intros [= <-]. rewrite reply_action.
    repeat split; try reflexivity; try discriminate; intros H; now destruct H.
  - simpl. intros [= <-]. rewrite reply_action.
    repeat split; try reflexivity; discriminate.
Qed.

Lemma preview_action_iff_confirm_word_witness :
  let text := "Sorry, I cannot CONFIRM your identity." in
  let r := reply (VStr text) "preview" (Some (VDict [("preview_id", VNone)])) in
  result_of (process_voice_input (lib_of []) (constant_world TimeoutException text)
               (init "u-1") "What's my balance?") = Ok r /\
  (get r "action" VNone = Ok (VStr "preview") <-> substring "confirm" (lower text)) /\
  (get r "action" VNone = Ok (VStr "info") <-> ~ substring "confirm" (lower text)).
Proof.
  intros text r.
  exact (conj eq_refl
           (preview_action_iff_confirm_word (lib_of []) (constant_world TimeoutException text)
              (init "u-1") "What's my balance?" r eq_refl eq_refl)).
Defined.

Lemma extract_preview_id_returns (lib : PyLib) (response : string) :
  decodes_objects lib -> returns (_extract_preview_id lib response) = true.
Proof.
  intros Hlib. unfold _extract_preview_id.
  destruct (search uuid_pattern response); [reflexivity |].
  destruct (contains "{" response); [| reflexivity].
  destruct (json_fragment response) as [f|] eqn:Ef; [| reflexivity].
  destruct (json_loads lib f) as [data|] eqn:El; [| reflexivity].
  destruct (json_fragment_sound _ _ Ef) as [_ Hb].
  now destruct (Hlib _ _ Hb El) as [kvs ->].
Qed.

(** X10. Given that [json.loads] decodes a text opening with a brace to an
    object or not at all, [process_voice_input] raises only while
    executing a confirmed preview: with no preview pending, or on an
    utterance that is not classified "confirmed", it returns a reply. *)
Theorem step_raises_only_while_executing
    (lib : PyLib) (w : world) (self : agent) (transcript : string) :
  decodes_objects lib ->
  truthy (pending_preview_id self) = false \/ _check_confirmation transcript <> "confirmed" ->
  returns (result_of (process_voice_input lib w self transcript)) = true.
Proof.
  intros Hlib H.
  destruct (truthy (pending_preview_id self)) eqn:Hp.
  - destruct H as [H | H]; [discriminate |].
    destruct (pending_step_cases lib w self transcript Hp) as [[E _] | [[_ S] | [_ S]]];
      [contradiction | now rewrite S | now rewrite S].
  - unfold process_voice_input. rewrite Hp.
    destruct (has_preview_marker _); [| reflexivity].
    pose proof (extract_preview_id_returns lib (run w (prompt_for self transcript)) Hlib) as R.
    now destruct (_extract_preview_id _ _).
Qed.

Lemma step_raises_only_while_executing_witness :
  returns (result_of (process_voice_input lib_no_id (constant_world TimeoutException no_id_text)
                        (init "u-1") "Send 5 GAS to @bob")) = true.
Proof.
  apply step_raises_only_while_executing.
  - apply lib_of_one_decodes.
  - left. reflexivity.
Defined.

(** ** From the adapter's answer to the spoken reply *)

Lemma execute_pending_result (lib : PyLib) (w : world) (self : agent) (result_str : string) :
  truthy (pending_preview_id self) = true ->
  fst (PaymentExecuteTool.execute lib w (user_id self) (pending_preview_id self)) = Ok result_str ->
  result_of (_execute_pending_payment lib w self) =
  match json_loads lib result_str with
  | Some result =>
      (success <- get result "success" VNone ;;
       if truthy success then
         (message <- get result "confirmation_message" (VStr "Payment sent successfully!") ;;
          tx_hash <- get result "tx_hash" VNone ;;
          explorer_url <- get result "explorer_url" VNone ;;
          Ok (reply message "confirmed"
                (Some (VDict [("tx_hash", tx_hash); ("explorer_url", explorer_url)]))))
       else
         (error <- get result "error" (VStr "Unknown error") ;;
          Ok (reply (VStr ("Payment failed: " ++ py_str lib error)) "error" (Some result))))%res
  | None =>
      Ok (reply (VStr "Payment status unclear. Please check your transaction history.")
            "error" None)
  end.
Proof.
  intros Hp Hr. unfold _execute_pending_payment. rewrite Hp. simpl negb. cbv iota.
  destruct (PaymentExecuteTool.execute lib w (user_id self) (pending_preview_id self)) as [r sent].
  simpl in Hr. subst r. reflexivity.
Qed.

Lemma confirmed_step (lib : PyLib) (w : world) (self : agent) (transcript : string) :
  truthy (pending_preview_id self) = true ->
  _check_confirmation transcript = "confirmed" ->
  process_voice_input lib w self transcript = _execute_pending_payment lib w self.
Proof.
  intros Hp Hc. unfold process_voice_input. now rewrite Hp, Hc.
Qed.

Lemma step_eq (s : step) (r : res value) (a : agent) (evs : list event) :
  result_of s = r -> agent_of s = a -> events_of s = evs -> s = (r, a, evs).
Proof.
  destruct s as [[r' a'] evs']. unfold result_of, agent_of, events_of. simpl.
  intros; subst; reflexivity.
Qed.

(** X11. A confirmed preview that the backend executes (status 200, an
    object with a string transaction hash) is answered with action
    "confirmed", the adapter's confirmation message, which shows the first
    16 characters of the hash, and the full hash and explorer URL in the
    data; the session is idle afterwards. The round trip of the adapter's
    object through [json.dumps] and [json.loads] is assumed. *)
Theorem executed_payment_is_confirmed
    (lib : PyLib) (w : world) (self : agent) (transcript : string)
    (kvs : list (string * value)) (tx : string) :
  truthy (pending_preview_id self) = true ->
  _check_confirmation transcript = "confirmed" ->
  send w (PaymentExecuteTool.request_for lib w (user_id self) (pending_preview_id self)) =
    Response 200 (Some (VDict kvs)) ->
  dict_get kvs "tx_hash" VNone = VStr tx ->
  json_loads lib (json_dumps lib (executed_payload lib kvs tx)) = Some (executed_payload lib kvs tx) ->
  process_voice_input lib w self transcript =
  (Ok (reply (VStr (executed_message lib kvs tx)) "confirmed"
         (Some (VDict [("tx_hash", VStr tx);
                       ("explorer_url", dict_get kvs "explorer_url" VNone)]))),
   set_pending self VNone,
   [Sent (PaymentExecuteTool.request_for lib w (user_id self) (pending_preview_id self))]).
Proof.
  intros Hp Hc Hs Htx Hrt.
  assert (Hr : fst (PaymentExecuteTool.execute lib w (user_id self) (pending_preview_id self)) =
               Ok (json_dumps lib (executed_payload lib kvs tx))).
  { unfold PaymentExecuteTool.execute. simpl. rewrite Hs. simpl. rewrite Htx. reflexivity. }
  rewrite (confirmed_step lib w self transcript Hp Hc).
  destruct (execute_pending_after_return lib w self _ Hp Hr) as [Ha He].
  apply step_eq; [| exact Ha | exact He].
  rewrite (execute_pending_result lib w self _ Hp Hr), Hrt. reflexivity.
Qed.

Lemma executed_payment_is_confirmed_witness :
  let lib := lib_with executed_text (executed_payload (lib_of []) executed_answer
                                 "0x9f3c2a77d1e04b5aa8c6f0e2b1d4c3a59e7f6b8d") in
  let w := constant_world (Response 200 (Some (VDict executed_answer))) "" in
  process_voice_input lib w (awaiting "pv-1") "Yes, confirm" =
  (Ok (reply (VStr "Payment sent successfully! 12.5 GAS has been sent to @alice. Transaction: 0x9f3c2a77d1e04b...")
         "confirmed"
         (Some (VDict [("tx_hash", VStr "0x9f3c2a77d1e04b5aa8c6f0e2b1d4c3a59e7f6b8d");
                       ("explorer_url", VStr "https://xexplorer.neo.org/tx/0x9f3c2a77d1e04b5aa8c6f0e2b1d4c3a59e7f6b8d")]))),
   set_pending (awaiting "pv-1") VNone,
   [Sent (PaymentExecuteTool.request_for lib w (user_id (awaiting "pv-1")) (VStr "pv-1"))]).
Proof.
  intros lib w.
  exact (executed_payment_is_confirmed lib w (awaiting "pv-1") "Yes, confirm" executed_answer
           "0x9f3c2a77d1e04b5aa8c6f0e2b1d4c3a59e7f6b8d" eq_refl eq_refl eq_refl eq_refl eq_refl).
Defined.

(** X12. When the execute request times out, the adapter's "may still be
    processing" warning carries neither "success" nor "error", so the
    session answers "Payment failed: Unknown error" with action "error",
    the warning in the data, and holds no preview afterwards. The round
    trip of the warning through [json.dumps] and [json.loads] is assumed. *)
Theorem timeout_is_reported_as_failure
    (lib : PyLib) (w : world) (self : agent) (transcript : string) :
  truthy (pending_preview_id self) = true ->
  _check_confirmation transcript = "confirmed" ->
  send w (PaymentExecuteTool.request_for lib w (user_id self) (pending_preview_id self)) =
    TimeoutException ->
  json_loads lib (json_dumps lib timeout_payload) = Some timeout_payload ->
  process_voice_input lib w self transcript =
  (Ok (reply (VStr "Payment failed: Unknown error") "error" (Some timeout_payload)),
   set_pending self VNone,
   [Sent (PaymentExecuteTool.request_for lib w (user_id self) (pending_preview_id self))]).
Proof.
  intros Hp Hc Hs Hrt.
  assert (Hr : fst (PaymentExecuteTool.execute lib w (user_id self) (pending_preview_id self)) =
               Ok (json_dumps lib timeout_payload)).
  { unfold PaymentExecuteTool.execute. simpl. now rewrite Hs. }
  rewrite (confirmed_step lib w self transcript Hp Hc).
  destruct (execute_pending_after_return lib w self _ Hp Hr) as [Ha He].
  apply step_eq; [| exact Ha | exact He].
  rewrite (execute_pending_result lib w self _ Hp Hr), Hrt. reflexivity.
Qed.

Lemma timeout_is_reported_as_failure_witness :
  let lib := lib_with timeout_text timeout_payload in
  let w := constant_world TimeoutException "" in
  process_voice_input lib w (awaiting "pv-1") "yes" =
  (Ok (reply (VStr "Payment failed: Unknown error") "error" (Some timeout_payload)),
   set_pending (awaiting "pv-1") VNone,
   [Sent (PaymentExecuteTool.request_for lib w (user_id (awaiting "pv-1")) (VStr "pv-1"))]).
Proof.
  intros lib w.
  exact (timeout_is_reported_as_failure lib w (awaiting "pv-1") "yes"
           eq_refl eq_refl eq_refl eq_refl).
Defined.

(** X13. When the backend answers the execute request with a status other
    than 200, the session answers "Payment failed: " followed by the
    adapter's message for that status, with action "error", and holds no
    preview afterwards; for a status outside 404, 403 and 409 the adapter's
    message is itself "Payment failed: <status>", so the prefix is spoken
    twice. That [json.loads] decodes the adapter's hand-spelled error
    object is assumed. *)
Theorem failed_execution_reply
    (lib : PyLib) (w : world) (self : agent) (transcript : string)
    (status_code : Z) (body : option value) :
  truthy (pending_preview_id self) = true ->
  _check_confirmation transcript = "confirmed" ->
  send w (PaymentExecuteTool.request_for lib w (user_id self) (pending_preview_id self)) =
    Response status_code body ->
  status_code <> 200%Z ->
  let msg := execute_error_message status_code in
  json_loads lib (error_json msg) = Some (VDict [("error", VStr msg)]) ->
  process_voice_input lib w self transcript =
    (Ok (reply (VStr ("Payment failed: " ++ msg)) "error" (Some (VDict [("error", VStr msg)]))),
     set_pending self VNone,
     [Sent (PaymentExecuteTool.request_for lib w (user_id self) (pending_preview_id self))]) /\
  (status_code <> 404%Z -> status_code <> 403%Z -> status_code <> 409%Z ->
   msg = "Payment failed: " ++ of_Z status_code).
Proof.
  intros Hp Hc Hs Hcode msg Hl.
  assert (Hr : fst (PaymentExecuteTool.execute lib w (user_id self) (pending_preview_id self)) =
               Ok (error_json msg)).
  { unfold PaymentExecuteTool.execute. simpl. rewrite Hs.
    apply Z.eqb_neq in Hcode. rewrite Hcode.
    unfold msg, execute_error_message. simpl. by_status_code. }
  split.
  - rewrite (confirmed_step lib w self transcript Hp Hc).
    destruct (execute_pending_after_return lib w self _ Hp Hr) as [Ha He].
    apply step_eq; [| exact Ha | exact He].
    rewrite (execute_pending_result lib w self _ Hp Hr), Hl. reflexivity.
  - intros H4 H3 H9. unfold msg, execute_error_message. simpl.
    apply Z.eqb_neq in H4, H3, H9. now rewrite H4, H3, H9.
Qed.

Lemma failed_execution_reply_witness :
  let lib := lib_of [(error_json "Payment failed: 500",
                      VDict [("error", VStr "Payment failed: 500")])] in
  let w := constant_world (Response 500 None) "" in
  process_voice_input lib w (awaiting "pv-1") "yes" =
    (Ok (reply (VStr "Payment failed: Payment failed: 500") "error"
           (Some (VDict [("error", VStr "Payment failed: 500")]))),
     set_pending (awaiting "pv-1") VNone,
     [Sent (PaymentExecuteTool.request_for lib w (user_id (awaiting "pv-1")) (VStr "pv-1"))]).
Proof.
  intros lib w.
  refine (proj1 (failed_execution_reply lib w (awaiting "pv-1") "yes" 500%Z None
                   eq_refl eq_refl eq_refl _ eq_refl)).
  discriminate.
Defined.

(** ** The adapters: validation, bounds, single attempt *)

Lemma rstrip_idem (s : string) : rstrip (rstrip s) = rstrip s.
Proof.
  induction s as [|c s IH]; [reflexivity |].
  rewrite rstrip_cons. destruct (rstrip s) as [|d r] eqn:E.
  - destruct (isspace c) eqn:Ec; [reflexivity |].
    rewrite rstrip_cons. simpl. now rewrite Ec.
  - rewrite rstrip_cons, IH. reflexivity.
Qed.

Lemma lstrip_head (s : string) : lstrip s = "" \/ starts_solid (lstrip s) = true.
Proof.
  induction s as [|c s IH]; [now left |].
  simpl. destruct (isspace c) eqn:E; [exact IH |].
  right. simpl. now rewrite E.
Qed.

Lemma lstrip_rstrip_solid (x : string) :
  starts_solid x = true -> lstrip (rstrip x) = rstrip x.
Proof.
  destruct x as [|c x]; [discriminate |].
  simpl starts_solid. intros Hc. apply negb_true_iff in Hc.
  rewrite rstrip_cons. destruct (rstrip x); rewrite ?Hc; simpl; now rewrite Hc.
Qed.

Lemma strip_idem (s : string) : strip (strip s) = strip s.
Proof.
  unfold strip. destruct (lstrip_head s) as [E | E].
  - now rewrite E.
  - now rewrite (lstrip_rstrip_solid _ E), rstrip_idem.
Qed.

(** X14. [resolve_tag] rejects a tag that is empty once the leading "@"
    signs and the surrounding white space are gone, with an error and
    without a request; every other tag is looked up with one GET whose path
    ends in the normalised tag, and that tag is lower-case and has no white
    space around it. *)
Theorem resolve_tag_validation (lib : PyLib) (w : world) (tag : string) :
  let clean := TagResolverTool.clean_tag tag in
  (clean = "" ->
   TagResolverTool.execute lib w tag = (Ok (error_json "Empty tag provided"), [])) /\
  (clean <> "" ->
   snd (TagResolverTool.execute lib w tag) =
   [Sent {| req_method := GET;
            req_url := backend_url w ++ "/api/v1/users/tag/" ++ clean;
            req_headers := [];
            req_params := [];
            req_json := None;
            req_timeout := 10 |}]) /\
  lower clean = clean /\
  strip clean = clean.
Proof.
  cbv zeta. repeat split.
  - intros E. unfold TagResolverTool.execute. now rewrite E.
  - intros E. unfold TagResolverTool.execute.
    destruct (String.eqb_spec (TagResolverTool.clean_tag tag) ""); [contradiction | reflexivity].
  - unfold TagResolverTool.clean_tag. now rewrite <- strip_lower, lower_idem.
  - unfold TagResolverTool.clean_tag. apply strip_idem.
Qed.

Lemma resolve_tag_validation_witness :
  TagResolverTool.clean_tag "@@  " = "" /\
  TagResolverTool.execute (lib_of []) alice_world "@@  " =
    (Ok (error_json "Empty tag provided"), []) /\
  snd (TagResolverTool.execute (lib_of []) alice_world "@Bob ") =
    [Sent {| req_method := GET;
             req_url := "http://localhost:8080/api/v1/users/tag/bob";
             req_headers := [];
             req_params := [];
             req_json := None;
             req_timeout := 10 |}].
Proof.
  destruct (resolve_tag_validation (lib_of []) alice_world "@@  ") as (A & _).
  destruct (resolve_tag_validation (lib_of []) alice_world "@Bob ") as (_ & B & _).
  refine (conj eq_refl (conj (A eq_refl) (B _))). discriminate.
Defined.

(** X15. [convert_fiat_to_gas] sends its one request exactly when the
    upper-cased currency is one of GBP, EUR, USD and CHF and the amount is
    not below or equal to zero; otherwise it returns a validation error
    without a request, the currency being checked first. *)
Theorem convert_validation (lib : PyLib) (w : world) (amount : float) (currency : string) :
  let cur := upper lib currency in
  let supported := existsb (String.eqb cur) FXConversionTool.supported in
  let positive := negb (PrimFloat.leb amount PrimFloat.zero) in
  (supported = true <-> In cur ["GBP"; "EUR"; "USD"; "CHF"]) /\
  (supported = false ->
   FXConversionTool.execute lib w amount currency =
   (Ok (error_json ("Unsupported currency: " ++ cur ++ ". Use GBP, EUR, USD, or CHF.")), [])) /\
  (supported = true -> positive = false ->
   FXConversionTool.execute lib w amount currency =
   (Ok (error_json "Amount must be positive"), [])) /\
  (supported = true -> positive = true ->
   snd (FXConversionTool.execute lib w amount currency) =
   [Sent (FXConversionTool.request_for w amount cur)]).
Proof.
  cbv zeta. unfold FXConversionTool.execute. repeat split.
  - rewrite existsb_exists. intros (x & Hx & E). apply String.eqb_eq in E. now subst x.
  - intros H. apply existsb_exists. exists (upper lib currency).
    split; [exact H | apply String.eqb_refl].
  - intros ->. reflexivity.
  - intros -> H. apply negb_false_iff in H. now rewrite H.
  - intros -> H. apply negb_true_iff in H. now rewrite H.
Qed.

Lemma convert_validation_witness :
  FXConversionTool.execute (lib_of []) (constant_world TimeoutException "") 0%float "USD" =
    (Ok (error_json "Amount must be positive"), []) /\
  FXConversionTool.execute (lib_of []) (constant_world TimeoutException "") (-5)%float "EUR" =
    (Ok (error_json "Amount must be positive"), []) /\
  FXConversionTool.execute (lib_of []) (constant_world TimeoutException "") 200%float "JPY" =
    (Ok (error_json "Unsupported currency: JPY. Use GBP, EUR, USD, or CHF."), []) /\
  snd (FXConversionTool.execute (lib_of []) (constant_world TimeoutException "") 200%float "GBP") =
    [Sent (FXConversionTool.request_for (constant_world TimeoutException "") 200%float "GBP")].
Proof.
  repeat apply conj.
  - exact (proj1 (proj2 (proj2 (convert_validation (lib_of [])
             (constant_world TimeoutException "") 0%float "USD"))) eq_refl eq_refl).
  - exact (proj1 (proj2 (proj2 (convert_validation (lib_of [])
             (constant_world TimeoutException "") (-5)%float "EUR"))) eq_refl eq_refl).
  - exact (proj1 (proj2 (convert_validation (lib_of [])
             (constant_world TimeoutException "") 200%float "JPY")) eq_refl).
  - exact (proj2 (proj2 (proj2 (convert_validation (lib_of [])
             (constant_world TimeoutException "") 200%float "GBP"))) eq_refl eq_refl).
Defined.

(** A NaN amount is not "below or equal to zero": it passes the check. *)
Example nan_amount_is_sent :
  snd (FXConversionTool.execute (lib_of []) (constant_world TimeoutException "") PrimFloat.nan "USD") =
  [Sent (FXConversionTool.request_for (constant_world TimeoutException "") PrimFloat.nan "USD")].
Proof. reflexivity. Qed.

(** X16. [generate_video] clamps the duration into 5..30 seconds before
    anything else: the duration in the request body is the clamped one,
    equal to the argument when that is in range, 5 below it and 30 above,
    and the estimated cost is computed from the clamped duration. *)
Theorem video_duration_is_clamped
    (w : world) (user_id prompt : string) (duration_seconds : Z) (style : string) :
  let d := VideoGenerationTool.clamp duration_seconds in
  (5 <= d <= 30)%Z /\
  ((5 <= duration_seconds <= 30)%Z -> d = duration_seconds) /\
  ((duration_seconds < 5)%Z -> d = 5%Z) /\
  ((30 < duration_seconds)%Z -> d = 30%Z) /\
  VideoGenerationTool.clamp d = d /\
  req_json (VideoGenerationTool.request_for w user_id prompt duration_seconds style) =
    Some (VDict [("prompt", VStr prompt);
                 ("duration_seconds", VInt d);
                 ("style", VStr style);
                 ("estimated_cost_usdc", VFloat (VideoGenerationTool.total_cost_usdc w d))]).
Proof.
  cbv zeta. unfold VideoGenerationTool.clamp. repeat split; try lia.
Qed.

Lemma video_duration_is_clamped_witness :
  VideoGenerationTool.clamp 12 = 12%Z /\
  VideoGenerationTool.clamp 0 = 5%Z /\
  VideoGenerationTool.clamp (-3) = 5%Z /\
  VideoGenerationTool.clamp 600 = 30%Z.
Proof.
  destruct (video_duration_is_clamped (constant_world TimeoutException "") "u-1" "a sunset" 12 "anime")
    as (_ & A & _).
  destruct (video_duration_is_clamped (constant_world TimeoutException "") "u-1" "a sunset" 0 "anime")
    as (_ & _ & B & _).
  destruct (video_duration_is_clamped (constant_world TimeoutException "") "u-1" "a sunset" (-3) "anime")
    as (_ & _ & B' & _).
  destruct (video_duration_is_clamped (constant_world TimeoutException "") "u-1" "a sunset" 600 "anime")
    as (_ & _ & _ & C & _).
  refine (conj (A _) (conj (B _) (conj (B' _) (C _)))); lia.
Defined.

(** X17. No adapter retries: whatever the backend answers, an adapter sends
    the same requests, and never more than one. *)
Theorem single_attempt (lib : PyLib) (w : world) (c : call) (send' : request -> http_outcome) :
  snd (execute lib (with_backend w send') c) = snd (execute lib w c) /\
  (List.length (snd (execute lib w c)) <= 1)%nat.
Proof.
  split.
  - destruct c; unfold execute; try reflexivity.
    + unfold TagResolverTool.execute. now destruct (String.eqb _ "").
    + unfold FXConversionTool.execute.
      destruct (negb _); [reflexivity |]. now destruct (PrimFloat.leb _ _).
  - destruct (at_most_one_request lib w c) as [-> | [req ->]]; simpl; lia.
Qed.

(** X18. Only status 200 counts as success: every adapter answers any other
    2xx status (201, say) with its generic error carrying the status
    code. *)
Theorem other_2xx_is_an_error
    (lib : PyLib) (w : world) (c : call) (req : request) (status_code : Z) (body : option value) :
  snd (execute lib w c) = [Sent req] ->
  send w req = Response status_code body ->
  (200 < status_code < 300)%Z ->
  fst (execute lib w c) = Ok (generic_error c status_code).
Proof.
  intros Hsent Hsend Hcode.
  assert (N : forall k : Z, (k <= 200 \/ 300 <= k)%Z -> (status_code =? k)%Z = false)
    by (intros k Hk; apply Z.eqb_neq; lia).
  destruct c; unfold execute in *.
  - unfold TagResolverTool.execute in *.
    destruct (String.eqb (TagResolverTool.clean_tag tag) ""); [discriminate |].
    simpl in *. injection Hsent as <-. rewrite Hsend, !N by lia. reflexivity.
  - unfold FXConversionTool.execute in *.
    destruct (negb (existsb _ _)); [discriminate |].
    destruct (PrimFloat.leb amount PrimFloat.zero); [discriminate |].
    simpl in *. injection Hsent as <-. rewrite Hsend, !N by lia. reflexivity.
  - unfold BalanceCheckTool.execute in *.
    simpl in *. injection Hsent as <-. rewrite Hsend, !N by lia. reflexivity.
  - unfold PaymentPreviewTool.execute in *.
    simpl in *. injection Hsent as <-. rewrite Hsend, !N by lia. reflexivity.
  - unfold PaymentExecuteTool.execute in *.
    simpl in *. injection Hsent as <-. rewrite Hsend, !N by lia. reflexivity.
  - unfold VideoGenerationTool.execute in *.
    simpl in *. injection Hsent as <-. rewrite Hsend, !N by lia. reflexivity.
Qed.

Lemma other_2xx_is_an_error_witness :
  fst (execute (lib_of []) (constant_world (Response 201 (Some (VDict [("preview_id", VStr "pv-9")]))) "")
         (create_payment_preview "u-1" "NXV7ZhHiyM1aHXwpVsRZC6BwNFP2jghXAq" "@alice" "12.5" 200%float "GBP")) =
  Ok (error_json "Failed to create preview: 201").
Proof.
  refine (other_2xx_is_an_error (lib_of [])
            (constant_world (Response 201 (Some (VDict [("preview_id", VStr "pv-9")]))) "")
            (create_payment_preview "u-1" "NXV7ZhHiyM1aHXwpVsRZC6BwNFP2jghXAq" "@alice" "12.5" 200%float "GBP")
            _ 201%Z _ eq_refl eq_refl _).
  lia.
Defined.

(** ** When the adapter raises, and what the preview adapter says *)

(** X19. When the execute adapter raises instead of returning (a 200
    answer whose body is malformed), the exception passes through
    [process_voice_input] and the preview stays pending: the next utterance
    classified "confirmed" sends the execute request for the same preview
    again. *)
Theorem raise_keeps_preview_pending
    (lib : PyLib) (w : world) (self : agent) (transcript : string) (e : exn) :
  truthy (pending_preview_id self) = true ->
  _check_confirmation transcript = "confirmed" ->
  fst (PaymentExecuteTool.execute lib w (user_id self) (pending_preview_id self)) = Raise e ->
  let s := process_voice_input lib w self transcript in
  result_of s = Raise e /\
  agent_of s = self /\
  forall (w' : world) (transcript' : string),
    _check_confirmation transcript' = "confirmed" ->
    events_of (process_voice_input lib w' (agent_of s) transcript') =
    [Sent (PaymentExecuteTool.request_for lib w' (user_id self) (pending_preview_id self))].
Proof.
  intros Hp Hc Hr. cbv zeta.
  rewrite (confirmed_step lib w self transcript Hp Hc).
  destruct (execute_raise_keeps_pending lib w self e Hp Hr) as [A B]. cbv zeta in A, B.
  rewrite A, B. repeat split.
  intros w' t' Hc'. rewrite (confirmed_step lib w' self t' Hp Hc').
  now apply execute_pending_events.
Qed.

Lemma raise_keeps_preview_pending_witness :
  let w := constant_world (Response 200 (Some (VDict [("status", VStr "confirmed")]))) "" in
  let s := process_voice_input (lib_of []) w (awaiting "pv-1") "yes" in
  result_of s = Raise TypeError /\
  agent_of s = awaiting "pv-1" /\
  forall (w' : world) (transcript' : string),
    _check_confirmation transcript' = "confirmed" ->
    events_of (process_voice_input (lib_of []) w' (agent_of s) transcript') =
    [Sent (PaymentExecuteTool.request_for (lib_of []) w' (user_id (awaiting "pv-1")) (VStr "pv-1"))].
Proof.
  intros w.
  exact (raise_keeps_preview_pending (lib_of []) w (awaiting "pv-1") "yes" TypeError
           eq_refl eq_refl eq_refl).
Defined.

Lemma preview_message_has_marker
    (lib : PyLib) (to_tag : string) (fiat_amount : float) (fiat_currency : string)
    (shown_gas : value) (before after : string) :
  has_preview_marker (before ++ preview_message lib to_tag fiat_amount fiat_currency shown_gas ++ after)
  = true.
Proof.
  rewrite marker_is_confirm. apply contains_spec. unfold preview_message.
  exists (lower (before ++ "You're about to send " ++ py_str lib (VFloat fiat_amount) ++ " "
                 ++ upper lib fiat_currency ++ " (approximately " ++ py_str lib shown_gas
                 ++ " GAS) to " ++ to_tag) ++ ". please "),
         (" by saying 'yes' or 'confirm'." ++ lower after).
  rewrite !lower_app, !append_assoc. reflexivity.
Qed.

(** X20. A preview the backend creates (status 200, an object) comes back
    from [create_payment_preview] with status "awaiting_confirmation" and a
    confirmation message that always carries the marker the session looks
    for: a model response that quotes the message, with any text around
    it, is answered as a preview when no preview is pending. *)
Theorem created_preview_carries_marker
    (lib : PyLib) (w : world) (user_id to_address to_tag amount_gas : string)
    (fiat_amount : float) (fiat_currency : string) (kvs : list (string * value)) :
  send w (PaymentPreviewTool.request_for lib w user_id to_address to_tag amount_gas
            fiat_amount fiat_currency) = Response 200 (Some (VDict kvs)) ->
  let message := preview_message lib to_tag fiat_amount fiat_currency
                   (dict_get kvs "amount_gas" VNone) in
  (exists fields,
     fst (PaymentPreviewTool.execute lib w user_id to_address to_tag amount_gas
            fiat_amount fiat_currency) = Ok (json_dumps lib (VDict fields)) /\
     assoc "preview_id" fields = Some (dict_get kvs "preview_id" VNone) /\
     assoc "status" fields = Some (VStr "awaiting_confirmation") /\
     assoc "confirmation_message" fields = Some (VStr message)) /\
  forall before after : string, has_preview_marker (before ++ message ++ after) = true.
Proof.
  intros Hs. cbv zeta. split.
  - unfold PaymentPreviewTool.execute. simpl. rewrite Hs. simpl.
    eexists. split; [reflexivity |]. repeat split.
  - intros before after. apply preview_message_has_marker.
Qed.

Lemma created_preview_carries_marker_witness :
  let w := constant_world (Response 200 (Some (VDict [("preview_id", VStr "pv-9");
                                                      ("amount_gas", VStr "12.5")]))) "" in
  let message := preview_message (lib_of []) "@alice" 200%float "GBP" (VStr "12.5") in
  (exists fields,
     fst (PaymentPreviewTool.execute (lib_of []) w "u-1" "NXV7ZhHiyM1aHXwpVsRZC6BwNFP2jghXAq"
            "@alice" "12.5" 200%float "GBP") = Ok (json_dumps (lib_of []) (VDict fields)) /\
     assoc "preview_id" fields = Some (VStr "pv-9") /\
     assoc "status" fields = Some (VStr "awaiting_confirmation") /\
     assoc "confirmation_message" fields = Some (VStr message)) /\
  forall before after : string, has_preview_marker (before ++ message ++ after) = true.
Proof.
  intros w.
  exact (created_preview_carries_marker (lib_of []) w "u-1" "NXV7ZhHiyM1aHXwpVsRZC6BwNFP2jghXAq"
           "@alice" "12.5" 200%float "GBP"
           [("preview_id", VStr "pv-9"); ("amount_gas", VStr "12.5")] eq_refl).
Defined.

(** ** The execute attempt, on every answer of the backend *)



